(** * Diet-Plan-Assistant: the food search and categorisation pipeline

    A shallow embedding of [usda_service.py] (class [USDAService]) and of
    [categorize_food_by_nutrients] and [gather_available_foods] from
    [app.py], with the properties of the search cascade, of query
    normalisation, of result post-processing, of nutrient extraction, of the
    two keyword classifiers and of the callers of the search.

    Conventions of the embedding:
    - Python [str] is [string]; the text is taken to be ASCII, so
      [str.lower] maps [A-Z] to [a-z] and leaves every other character alone.
    - Python numbers ([int] and [float] as produced by the JSON decoder) are
      an abstract type [num] with the operations the code applies to them
      (class [PyNumber]); exact rationals [Q] give a computable instance.
    - A decoded JSON document is a value of [json]; every attribute access
      the source performs on it can raise, as in Python.
    - Exceptions are values of [exn]; pure fallible code is in [result],
      code that talks to the backend is in the state-and-exception monad [M]
      whose state holds the backend and the log of the requests issued. *)

From Stdlib Require Import Ascii String QArith Qround.
From stdpp Require Import base gmap strings list.

Local Open Scope Z_scope.
Local Open Scope string_scope.

(** ** Python strings *)

Module PyStr.

(** [c.isspace()] on ASCII: tab to carriage return, the four separators
    and the blank. *)
Definition is_space (c : ascii) : bool :=
  let n := N_of_ascii c in
  ((9 <=? n)%N && (n <=? 13)%N) || ((28 <=? n)%N && (n <=? 32)%N).

Definition lower_char (c : ascii) : ascii :=
  let n := N_of_ascii c in
  if ((65 <=? n)%N && (n <=? 90)%N)%bool then ascii_of_N (n + 32) else c.

(** [s.lower()] *)
Fixpoint lower (s : string) : string :=
  match s with
  | EmptyString => EmptyString
  | String c r => String (lower_char c) (lower r)
  end.

Definition is_empty (s : string) : bool :=
  match s with EmptyString => true | _ => false end.

Fixpoint lstrip (s : string) : string :=
  match s with
  | EmptyString => EmptyString
  | String c r => if is_space c then lstrip r else s
  end.

Fixpoint rstrip (s : string) : string :=
  match s with
  | EmptyString => EmptyString
  | String c r =>
      let r' := rstrip r in
      if (is_space c && is_empty r')%bool then EmptyString else String c r'
  end.

(** [s.strip()] *)
Definition strip (s : string) : string := rstrip (lstrip s).

(** [s.split()]: the maximal runs of non-whitespace characters. [word] is
    the run being read. *)
Fixpoint split_from (s : string) (word : string) : list string :=
  match s with
  | EmptyString => if is_empty word then [] else [word]
  | String c r =>
      if is_space c
      then (if is_empty word then split_from r EmptyString
            else word :: split_from r EmptyString)
      else split_from r (word +:+ String c EmptyString)
  end.

Definition split (s : string) : list string := split_from s EmptyString.

(** [sep.join(words)] *)
Fixpoint join (sep : string) (words : list string) : string :=
  match words with
  | [] => EmptyString
  | [w] => w
  | w :: rest => w +:+ sep +:+ join sep rest
  end.

Fixpoint starts_with (p s : string) : bool :=
  match p, s with
  | EmptyString, _ => true
  | String a p', String b s' => if Ascii.eqb a b then starts_with p' s' else false
  | String _ _, EmptyString => false
  end.

(** [sub in s] *)
Fixpoint contains (sub s : string) : bool :=
  if starts_with sub s then true
  else match s with
       | EmptyString => false
       | String _ r => contains sub r
       end.

(** [s.replace(old, new)] for a non-empty [old]: the non-overlapping
    occurrences of [old], scanned from the left. [skip] counts the
    characters of the occurrence just replaced that are still to be dropped. *)
Fixpoint replace_from (old new s : string) (skip : nat) : string :=
  match s with
  | EmptyString => EmptyString
  | String c r =>
      match skip with
      | S k => replace_from old new r k
      | O =>
          if starts_with old s
          then new +:+ replace_from old new r (Nat.pred (String.length old))
          else String c (replace_from old new r O)
      end
  end.

Definition replace (old new s : string) : string := replace_from old new s O.

(** [any(keyword in s for keyword in keywords)] *)
Definition any_in (keywords : list string) (s : string) : bool :=
  existsb (fun keyword => contains keyword s) keywords.

End PyStr.

(** ** Python numbers *)

(** The operations the source applies to the numbers of a backend response
    and of a food record, with the few facts about them the proofs use.
    Each fact holds of Python's [int] and [float] (also of [nan] and the
    infinities, which the JSON decoder accepts). *)
Class PyNumber (num : Type) := {
  num_lit : Q -> num;                  (* a numeric literal of the source *)
  num_eqb : num -> num -> bool;        (* [a == b] *)
  num_ltb : num -> num -> bool;        (* [a < b] *)
  num_mul : num -> num -> num;         (* [a * b] *)
  num_div : num -> num -> num;         (* [a / b] for [b != 0] *)
  num_round : Z -> num -> num;         (* [round(a, ndigits)] *)
  num_ltb_zero_irrefl : num_ltb (num_lit 0) (num_lit 0) = false;
  num_ltb_one_zero : num_ltb (num_lit 1) (num_lit 0) = false;
  num_pos_nonzero : forall c,
    num_ltb (num_lit 0) c = true -> num_eqb c (num_lit 0) = false;
  num_round_nonneg : forall d v,
    num_ltb v (num_lit 0) = false -> num_ltb (num_round d v) (num_lit 0) = false
}.

(** [a > b] *)
Definition num_gtb {num : Type} `{PyNumber num} (a b : num) : bool := num_ltb b a.

(** Truth value of a number: [not v] is [v == 0]. *)
Definition num_falsy {num : Type} `{PyNumber num} (v : num) : bool := num_eqb v (num_lit 0).

(** Exact rationals: [round] is to the nearest multiple of [10^-ndigits]
    (for [ndigits >= 0]), a tie going to the even neighbour, which is what
    Python's [round] gives on a value it represents exactly. *)
Module QNum.

Definition round_half_even (x : Q) : Z :=
  let f := Qfloor x in
  let twice_frac := Qfloor ((x - inject_Z f) * 2) in   (* 0 below the tie, 1 from it on *)
  if Qeq_bool ((x - inject_Z f) * 2) 1
  then (if Z.even f then f else f + 1)
  else f + twice_frac.

Definition round (ndigits : Z) (v : Q) : Q :=
  let scale := inject_Z (10 ^ ndigits) in
  inject_Z (round_half_even (v * scale)) / scale.

Definition ltb (a b : Q) : bool := negb (Qle_bool b a).

End QNum.

(** ** Exceptions *)

(** The exception classes that the modelled code can raise; all of them
    derive from Python's [Exception]. *)
Inductive exn : Type :=
  | RequestException   (* requests.exceptions.RequestException and subclasses:
                          ConnectionError, Timeout, InvalidJSONError, ... *)
  | ValueError         (* json.JSONDecodeError of older [requests] releases *)
  | AttributeError
  | TypeError
  | ZeroDivisionError
  | OtherException.

(** [isinstance(e, requests.exceptions.RequestException)] *)
Definition is_RequestException (e : exn) : bool :=
  match e with RequestException => true | _ => false end.

Inductive result (A : Type) : Type :=
  | Ok (a : A)
  | Raise (e : exn).
Arguments Ok {A} a.
Arguments Raise {A} e.

#[export] Instance result_ret : MRet result := fun A a => Ok a.
#[export] Instance result_bind : MBind result := fun A B f m =>
  match m with
  | Ok a => f a
  | Raise e => Raise e
  end.

(** ** Decoded JSON values *)

Section Json.
Context {num : Type} `{PyNumber num}.

#[local] Unset Elimination Schemes.
Inductive json : Type :=
  | JNull
  | JBool (b : bool)
  | JNum (v : num)
  | JStr (s : string)
  | JArr (items : list json)
  | JObj (fields : list (string * json)).
#[local] Set Elimination Schemes.

(** [JObj fields] is a dict with the items [fields], each key once, in
    insertion order. *)
Fixpoint assoc (k : string) (fields : list (string * json)) : option json :=
  match fields with
  | [] => None
  | (k', v) :: rest => if String.eqb k k' then Some v else assoc k rest
  end.

(** [d.get(k, default)]: only a dict has [get]. *)
Definition py_get (d : json) (k : string) (default : json) : result json :=
  match d with
  | JObj fields => Ok (match assoc k fields with Some v => v | None => default end)
  | _ => Raise AttributeError
  end.

(** [for x in v]: a list yields its items, a dict its keys, a string its
    characters; nothing else is iterable. *)
Definition py_iter (v : json) : result (list json) :=
  match v with
  | JArr items => Ok items
  | JObj fields => Ok (map (fun kv => JStr (fst kv)) fields)
  | JStr s => Ok (map (fun c => JStr (String c EmptyString)) (list_ascii_of_string s))
  | _ => Raise TypeError
  end.

(** [v.strip()] and [v.lower()]: only a [str] has them. *)
Definition py_strip (v : json) : result string :=
  match v with
  | JStr s => Ok (PyStr.strip s)
  | _ => Raise AttributeError
  end.

Definition py_lower (v : json) : result string :=
  match v with
  | JStr s => Ok (PyStr.lower s)
  | _ => Raise AttributeError
  end.

(** [value is None or value == 0]; [False == 0] holds, and a string or a
    container never equals [0]. *)
Definition is_none_or_zero (value : json) : bool :=
  match value with
  | JNull => true
  | JNum v => num_eqb v (num_lit 0)
  | JBool b => negb b
  | _ => false
  end.

(** [round(value, ndigits)]: [bool] is a subclass of [int]; other types have
    no [__round__]. *)
Definition py_round (value : json) (ndigits : Z) : result num :=
  match value with
  | JNum v => Ok (num_round ndigits v)
  | JBool b => Ok (num_round ndigits (num_lit (if b then 1 else 0)))
  | _ => Raise TypeError
  end.

End Json.
Arguments json : clear implicits.

(** ** The backend: requests and responses *)

(** The [params] dictionary handed to [requests.get]; the [api_key] entry is
    a constant of the configuration and is left out. *)
Record Request : Type := {
  rq_query : string;
  rq_pageSize : Z;
  rq_requireAllWords : bool;
  rq_dataType : option (list string)
}.

(** What the code reads off a response: [status_code], and the outcome of
    [response.json()], which raises on a body that is not JSON. *)
Record Response (num : Type) : Type := {
  status_code : Z;
  response_json : result (json num)
}.
Arguments status_code {num} _.
Arguments response_json {num} _.

(** A food of the result list: the dict built by [_parse_food_data]. *)
Record Food (num : Type) : Type := {
  name : string;
  nutrients : gmap string num;
  fdcId : json num;
  dataType : json num
}.
Arguments name {num} _.
Arguments nutrients {num} _.
Arguments fdcId {num} _.
Arguments dataType {num} _.

(** The world outside the process: the backend in some state of its own,
    and the requests issued so far, oldest first. *)
Record World (B : Type) : Type := {
  backend : B;
  calls : list Request
}.
Arguments backend {B} _.
Arguments calls {B} _.

(** ** [USDAService] *)

Module USDAService.
Section Service.
Context {num : Type} `{PyNumber num}.

(** *** Nutrient extraction *)

(** [nutrient_mapping], searched as the dict is: by equality with the key. *)
Definition nutrient_mapping : list (Q * string) :=
  [ (1003%Q, "protein"); (1004%Q, "fat"); (1005%Q, "carbs"); (1008%Q, "calories") ].

(** [nutrient_id in nutrient_mapping] and [nutrient_mapping[nutrient_id]]:
    hashing a list or a dict raises [TypeError]; [True] and [False] are the
    integers 1 and 0. *)
Definition mapping_find (nutrient_id : json num) : result (option string) :=
  let find v := snd <$> List.find (fun kv => num_eqb v (num_lit (fst kv))) nutrient_mapping in
  match nutrient_id with
  | JNum v => Ok (find v)
  | JBool b => Ok (find (num_lit (if b then 1 else 0)))
  | JNull | JStr _ => Ok None
  | JArr _ | JObj _ => Raise TypeError
  end.

(** [key in nutrients] *)
Definition has_key (key : string) (nutrients : gmap string num) : bool :=
  bool_decide (is_Some (nutrients !! key)).

(** The body of [for nutrient in nutrients_list]. *)
Fixpoint extract_loop (nutrients_list : list (json num)) (nutrients : gmap string num)
  : result (gmap string num) :=
  match nutrients_list with
  | [] => Ok nutrients
  | nutrient :: rest =>
      nutrient_id ← py_get nutrient "nutrientId" JNull;
      nutrient_name ← py_get nutrient "nutrientName" (JStr "") ≫= py_lower;
      value ← py_get nutrient "value" (JNum (num_lit 0));
      if is_none_or_zero value then extract_loop rest nutrients
      else
        hit ← mapping_find nutrient_id;
        match hit with
        | Some key =>
            v ← py_round value (if String.eqb key "calories" then 0 else 1);
            extract_loop rest (<[key := v]> nutrients)
        | None =>
            if PyStr.contains "protein" nutrient_name && negb (has_key "protein" nutrients)
            then v ← py_round value 1; extract_loop rest (<["protein" := v]> nutrients)
            else if PyStr.contains "carbohydrate" nutrient_name
                    && negb (has_key "carbs" nutrients)
            then v ← py_round value 1; extract_loop rest (<["carbs" := v]> nutrients)
            else if (PyStr.contains "total lipid" nutrient_name
                     || PyStr.contains "fat, total" nutrient_name)
                    && negb (has_key "fat" nutrients)
            then v ← py_round value 1; extract_loop rest (<["fat" := v]> nutrients)
            else if PyStr.contains "energy" nutrient_name
                    && negb (has_key "calories" nutrients)
            then v ← py_round value 0; extract_loop rest (<["calories" := v]> nutrients)
            else extract_loop rest nutrients
        end
  end.

(** The four keys of a nutrient mapping. *)
Definition nutrient_keys : gset string := {[ "calories"; "protein"; "carbs"; "fat" ]}.

(** [for key in [...]: if key not in nutrients: nutrients[key] = 0] *)
Definition fill_defaults (nutrients : gmap string num) : gmap string num :=
  foldl (fun m key => if has_key key m then m else <[key := num_lit 0]> m)
        nutrients ["calories"; "protein"; "carbs"; "fat"].

Definition _extract_nutrients (nutrients_list : json num) : result (gmap string num) :=
  items ← py_iter nutrients_list;
  nutrients ← extract_loop items ∅;
  Ok (fill_defaults nutrients).

(** *** Result post-processing *)

(** [not nutrients.get(key)]: a missing key gives [None], which is false. *)
Definition get_falsy (key : string) (nutrients : gmap string num) : bool :=
  match nutrients !! key with
  | Some v => num_falsy v
  | None => true
  end.

(** The body of [for food in response_data.get('foods', [])]. [continue] is
    the recursive call on the unchanged accumulators, [break] returns. *)
Fixpoint parse_loop (items : list (json num)) (max_results : Z)
    (foods : list (Food num)) (seen_names : gset string) : result (list (Food num)) :=
  match items with
  | [] => Ok foods
  | food :: rest =>
      description ← py_get food "description" (JStr "") ≫= py_strip;
      if PyStr.is_empty description then parse_loop rest max_results foods seen_names
      else
        let description_lower := PyStr.lower description in
        if bool_decide (description_lower ∈ seen_names)
        then parse_loop rest max_results foods seen_names
        else
          nutrients ← py_get food "foodNutrients" (JArr []) ≫= _extract_nutrients;
          if get_falsy "calories" nutrients && get_falsy "protein" nutrients
          then parse_loop rest max_results foods seen_names
          else
            fdc ← py_get food "fdcId" JNull;
            dt ← py_get food "dataType" (JStr "Unknown");
            let foods := (foods ++ [ {| name := description; nutrients := nutrients;
                                        fdcId := fdc; dataType := dt |} ])%list in
            let seen_names := {[ description_lower ]} ∪ seen_names in
            if (Z.of_nat (length foods) >=? max_results)%Z then Ok foods
            else parse_loop rest max_results foods seen_names
  end.

Definition _parse_food_data (response_data : json num) (max_results : Z)
  : result (list (Food num)) :=
  items ← py_get response_data "foods" (JArr []) ≫= py_iter;
  parse_loop items max_results [] ∅.

(** *** Query normalisation *)

(** [query] is [None] for Python's [None]. *)
Definition _clean_query (query : option string) : option string :=
  match query with
  | None => None
  | Some q =>
      if PyStr.is_empty q then None
      else
        let cleaned := PyStr.join " " (PyStr.split (PyStr.strip q)) in
        if (String.length cleaned <? 2)%nat then None else Some cleaned
  end.

Definition descriptors : list string :=
  [ ", raw"; ", cooked"; ", boiled"; ", baked"; ", fried";
    ", grilled"; ", roasted"; ", steamed"; ", fresh"; ", dried";
    "raw "; "cooked "; "boiled "; "baked "; "fried ";
    "grilled "; "roasted "; "steamed "; "fresh "; "dried " ].

Definition _simplify_query (query : string) : string :=
  let simplified := PyStr.lower query in
  let simplified :=
    foldl (fun simplified descriptor => PyStr.replace descriptor "" simplified)
          simplified descriptors in
  PyStr.strip simplified.

(** *** Talking to the backend *)

Section Backend.
Context {B : Type}.
(** [requests.get(url, params=params, timeout=10)]: any answer, or an
    exception, and a next state of the backend. *)
Variable requests_get : Request -> B -> result (Response num) * B.

Definition M (A : Type) : Type := World B -> result A * World B.

Definition ret {A} (a : A) : M A := fun w => (Ok a, w).

Definition bind {A C} (m : M A) (k : A -> M C) : M C := fun w =>
  match m w with
  | (Ok a, w') => k a w'
  | (Raise e, w') => (Raise e, w')
  end.

Definition lift {A} (r : result A) : M A := fun w => (r, w).

(** [try: body except cls: handler], where [catches e] is [isinstance(e, cls)]. *)
Definition try_except {A} (body : M A) (catches : exn -> bool) (handler : exn -> M A)
  : M A := fun w =>
  match body w with
  | (Raise e, w') => if catches e then handler e w' else (Raise e, w')
  | r => r
  end.

Definition http_get (params : Request) : M (Response num) := fun w =>
  let (r, b) := requests_get params (backend w) in
  (r, {| backend := b; calls := (calls w ++ [params])%list |}).

(** [if data_types:] is false for [None] and for the empty list. *)
Definition truthy_list {A} (l : option (list A)) : bool :=
  match l with
  | Some (_ :: _) => true
  | _ => false
  end.

Definition _search_with_params (query : string) (max_results : Z)
    (data_types : option (list string)) (require_all_words : bool) : M (list (Food num)) :=
  let params := {| rq_query := query;
                   rq_pageSize := Z.min (max_results * 2) 50;
                   rq_requireAllWords := require_all_words;
                   rq_dataType := None |} in
  let params :=
    if truthy_list data_types
    then {| rq_query := rq_query params; rq_pageSize := rq_pageSize params;
            rq_requireAllWords := rq_requireAllWords params;
            rq_dataType := data_types |}
    else params in
  try_except
    (bind (http_get params) (fun response =>
     if (status_code response =? 200)%Z then
       bind (lift (response_json response)) (fun data =>
       lift (_parse_food_data data max_results))
     else if (status_code response =? 400)%Z then
       if require_all_words then
         let params := {| rq_query := rq_query params; rq_pageSize := rq_pageSize params;
                          rq_requireAllWords := false;
                          rq_dataType := rq_dataType params |} in
         bind (http_get params) (fun response =>
         if (status_code response =? 200)%Z then
           bind (lift (response_json response)) (fun data =>
           lift (_parse_food_data data max_results))
         else ret [])
       else ret []
     else ret []))
    is_RequestException
    (fun _ => ret []).

(** The five lambdas of [search_strategies], in the order of the list. *)
Definition search_strategies (cleaned_query : string) (max_results : Z)
  : list (M (list (Food num))) :=
  [ _search_with_params cleaned_query max_results (Some ["SR Legacy"]) true;
    _search_with_params cleaned_query max_results (Some ["Foundation"]) true;
    _search_with_params cleaned_query max_results
      (Some ["SR Legacy"; "Foundation"; "Survey (FNDDS)"]) false;
    _search_with_params cleaned_query max_results None false;
    (fun w => _search_with_params (_simplify_query cleaned_query) max_results None false w) ].

(** [for strategy in search_strategies: try: ... except Exception: continue],
    followed by the final [return []]. Every [exn] is an [Exception]. *)
Fixpoint try_strategies (strategies : list (M (list (Food num)))) : M (list (Food num)) :=
  match strategies with
  | [] => ret []
  | strategy :: rest => fun w =>
      match strategy w with
      | (Ok foods, w') =>
          match foods with
          | _ :: _ => (Ok foods, w')
          | [] => try_strategies rest w'
          end
      | (Raise _, w') => try_strategies rest w'
      end
  end.

Definition search_foods (query : option string) (max_results : Z) : M (list (Food num)) :=
  match query with
  | None => ret []
  | Some q =>
      if PyStr.is_empty q || PyStr.is_empty (PyStr.strip q) then ret []
      else
        match _clean_query query with
        | None => ret []
        | Some cleaned_query =>
            if PyStr.is_empty cleaned_query then ret []
            else try_strategies (search_strategies cleaned_query max_results)
        end
  end.

(** *** The cascade in the words of the specification *)

(** A row of the strategy table: the query used, the data-type filter
    ([None] for no filter) and the require-all-words flag. *)
Record Strategy : Type := {
  st_query : string;
  st_data_types : option (list string);
  st_require_all_words : bool
}.

Definition cascade (cleaned_query : string) : list Strategy :=
  [ {| st_query := cleaned_query; st_data_types := Some ["SR Legacy"];
       st_require_all_words := true |};
    {| st_query := cleaned_query; st_data_types := Some ["Foundation"];
       st_require_all_words := true |};
    {| st_query := cleaned_query;
       st_data_types := Some ["SR Legacy"; "Foundation"; "Survey (FNDDS)"];
       st_require_all_words := false |};
    {| st_query := cleaned_query; st_data_types := None;
       st_require_all_words := false |};
    {| st_query := _simplify_query cleaned_query; st_data_types := None;
       st_require_all_words := false |} ].

Definition run_strategy (max_results : Z) (s : Strategy) : M (list (Food num)) :=
  _search_with_params (st_query s) max_results (st_data_types s) (st_require_all_words s).

(** A strategy yields nothing when it returns the empty list or raises. *)
Definition yields_nothing {A} (r : result (list A)) : Prop :=
  match r with
  | Ok [] => True
  | Ok (_ :: _) => False
  | Raise _ => True
  end.

(** [cascade_run n strategies w foods w']: started in world [w], the
    strategies are run one after the other, each in the world its
    predecessor left; the first non-empty output [foods] is the result and
    [w'] is the world right after the strategy that produced it. When all
    yield nothing the result is empty. *)
Inductive cascade_run (max_results : Z)
  : list Strategy -> World B -> list (Food num) -> World B -> Prop :=
  | cascade_exhausted w :
      cascade_run max_results [] w [] w
  | cascade_hit s rest w food foods w' :
      run_strategy max_results s w = (Ok (food :: foods), w') ->
      cascade_run max_results (s :: rest) w (food :: foods) w'
  | cascade_miss s rest w r w' foods w'' :
      run_strategy max_results s w = (r, w') ->
      yields_nothing r ->
      cascade_run max_results rest w' foods w'' ->
      cascade_run max_results (s :: rest) w foods w''.

(** The request a strategy sends first, and its relaxed retry. *)
Definition first_request (query : string) (max_results : Z)
    (data_types : option (list string)) (require_all_words : bool) : Request :=
  {| rq_query := query;
     rq_pageSize := Z.min (max_results * 2) 50;
     rq_requireAllWords := require_all_words;
     rq_dataType := if truthy_list data_types then data_types else None |}.

Definition relaxed (params : Request) : Request :=
  {| rq_query := rq_query params; rq_pageSize := rq_pageSize params;
     rq_requireAllWords := false; rq_dataType := rq_dataType params |}.

End Backend.

(** *** Post-processing in the words of the specification *)

(** What one backend entry contributes when looked at on its own: nothing
    when its stripped description is empty, else the food record with the
    extracted nutrients. *)
Definition decode_item (food : json num) : result (option (Food num)) :=
  description ← py_get food "description" (JStr "") ≫= py_strip;
  if PyStr.is_empty description then Ok None
  else
    nutrients ← py_get food "foodNutrients" (JArr []) ≫= _extract_nutrients;
    fdc ← py_get food "fdcId" JNull;
    dt ← py_get food "dataType" (JStr "Unknown");
    Ok (Some {| name := description; nutrients := nutrients;
                fdcId := fdc; dataType := dt |}).

(** The named entries of a response, in source order. *)
Fixpoint decode_all (items : list (json num)) : result (list (Food num)) :=
  match items with
  | [] => Ok []
  | food :: rest =>
      o ← decode_item food;
      named ← decode_all rest;
      Ok (match o with Some f => f :: named | None => named end)
  end.

Definition name_key (f : Food num) : string := PyStr.lower (name f).

(** Too poor in data: calories and protein both absent or zero. *)
Definition data_poor (f : Food num) : bool :=
  get_falsy "calories" (nutrients f) && get_falsy "protein" (nutrients f).

(** Keep the first entry of every lower-cased name not in [seen]. *)
Fixpoint dedup_first (l : list (Food num)) (seen : gset string) : list (Food num) :=
  match l with
  | [] => []
  | f :: rest =>
      if bool_decide (name_key f ∈ seen) then dedup_first rest seen
      else f :: dedup_first rest ({[ name_key f ]} ∪ seen)
  end.

(** The order of the specification: names, duplicates, data-poor, cap. *)
Definition postprocess_as_specified (named : list (Food num)) (max_results : Z)
  : list (Food num) :=
  take (Z.to_nat max_results)
       (List.filter (fun f => negb (data_poor f)) (dedup_first named ∅)).

(** The order of the code: names, data-poor, duplicates, cap. *)
Definition postprocess (named : list (Food num)) (max_results : Z) : list (Food num) :=
  take (Z.to_nat max_results)
       (dedup_first (List.filter (fun f => negb (data_poor f)) named) ∅).



(** *** Keyword classification *)

Definition protein_keywords : list string :=
  [ "chicken"; "beef"; "pork"; "fish"; "salmon"; "tuna"; "turkey";
    "egg"; "tofu"; "tempeh"; "seitan"; "lentil"; "bean"; "chickpea";
    "yogurt"; "cottage cheese"; "protein"; "meat"; "shrimp"; "crab";
    "lobster"; "duck"; "lamb"; "veal"; "venison" ].

Definition carb_keywords : list string :=
  [ "rice"; "pasta"; "bread"; "potato"; "sweet potato"; "yam";
    "oat"; "quinoa"; "barley"; "wheat"; "corn"; "cereal";
    "noodle"; "tortilla"; "bagel"; "muffin"; "cracker" ].

Definition vegetable_keywords : list string :=
  [ "broccoli"; "spinach"; "kale"; "lettuce"; "tomato"; "cucumber";
    "pepper"; "carrot"; "celery"; "onion"; "garlic"; "mushroom";
    "zucchini"; "squash"; "cauliflower"; "cabbage"; "bok choy";
    "asparagus"; "green bean"; "pea"; "brussels sprout"; "eggplant" ].

Definition fat_keywords : list string :=
  [ "oil"; "butter"; "avocado"; "nut"; "almond"; "walnut"; "cashew";
    "peanut"; "seed"; "olive"; "coconut"; "cheese"; "cream" ].

Definition categorize_food (food_name : string) : string :=
  let name_lower := PyStr.lower food_name in
  if PyStr.any_in protein_keywords name_lower then "proteins"
  else if PyStr.any_in carb_keywords name_lower then "carbs"
  else if PyStr.any_in vegetable_keywords name_lower then "vegetables"
  else if PyStr.any_in fat_keywords name_lower then "fats"
  else "proteins".

End Service.
End USDAService.

(** ** [app.py] *)

Module App.
Section Categorize.
Context {num : Type} `{PyNumber num}.

Definition protein_keywords : list string :=
  [ "chicken"; "beef"; "pork"; "fish"; "salmon"; "tuna"; "turkey"; "duck";
    "egg"; "tofu"; "tempeh"; "seitan"; "lentil"; "bean"; "chickpea"; "pea";
    "yogurt"; "cottage cheese"; "protein"; "meat"; "shrimp"; "crab"; "lobster";
    "lamb"; "veal"; "venison"; "bison"; "quail"; "sardine"; "mackerel" ].

Definition carb_keywords : list string :=
  [ "rice"; "pasta"; "bread"; "potato"; "sweet potato"; "yam"; "oat"; "oatmeal";
    "quinoa"; "barley"; "wheat"; "corn"; "cereal"; "noodle"; "spaghetti";
    "tortilla"; "bagel"; "muffin"; "cracker"; "couscous"; "bulgur"; "farro" ].

Definition vegetable_keywords : list string :=
  [ "broccoli"; "spinach"; "kale"; "lettuce"; "tomato"; "cucumber"; "pepper";
    "carrot"; "celery"; "onion"; "garlic"; "mushroom"; "zucchini"; "squash";
    "cauliflower"; "cabbage"; "bok choy"; "asparagus"; "green bean"; "brussels";
    "eggplant"; "radish"; "beet"; "turnip"; "arugula"; "chard"; "collard" ].

Definition fat_keywords : list string :=
  [ "oil"; "butter"; "avocado"; "nut"; "almond"; "walnut"; "cashew"; "pecan";
    "peanut"; "seed"; "olive"; "coconut"; "cheese"; "cream"; "mayo"; "ghee" ].

(** [a / b]: division by zero raises. *)
Definition py_div (a b : num) : result num :=
  if num_eqb b (num_lit 0) then Raise ZeroDivisionError else Ok (num_div a b).

(** [nutrients.get(key, 0)] *)
Definition get_or_zero (key : string) (nutrients : gmap string num) : num :=
  default (num_lit 0) (nutrients !! key).

Definition categorize_food_by_nutrients (food : Food num) : result string :=
  let name_lower := PyStr.lower (name food) in
  let protein := get_or_zero "protein" (nutrients food) in
  let carbs := get_or_zero "carbs" (nutrients food) in
  let fat := get_or_zero "fat" (nutrients food) in
  let calories := get_or_zero "calories" (nutrients food) in
  if PyStr.any_in protein_keywords name_lower then Ok "proteins"
  else if PyStr.any_in carb_keywords name_lower then Ok "carbs"
  else if PyStr.any_in vegetable_keywords name_lower then Ok "vegetables"
  else if PyStr.any_in fat_keywords name_lower then Ok "fats"
  else if num_gtb calories (num_lit 0) then
    protein_cal_pct ← (if num_gtb calories (num_lit 0)
                       then py_div (num_mul protein (num_lit 4)) calories
                       else Ok (num_lit 0));
    carbs_cal_pct ← (if num_gtb calories (num_lit 0)
                     then py_div (num_mul carbs (num_lit 4)) calories
                     else Ok (num_lit 0));
    fat_cal_pct ← (if num_gtb calories (num_lit 0)
                   then py_div (num_mul fat (num_lit 9)) calories
                   else Ok (num_lit 0));
    if num_gtb protein_cal_pct (num_lit (3 # 10)) then Ok "proteins"
    else if num_gtb fat_cal_pct (num_lit (5 # 10)) then Ok "fats"
    else if num_gtb carbs_cal_pct (num_lit (4 # 10)) then Ok "carbs"
    else if num_ltb carbs (num_lit 10) && num_ltb calories (num_lit 50) then Ok "vegetables"
    else Ok "proteins"
  else Ok "proteins".

(** *** The classifier in the words of the specification *)

Definition categories : list string := [ "proteins"; "carbs"; "vegetables"; "fats" ].

(** No keyword of any of the four lists occurs in the lower-cased name. *)
Definition no_keyword (food : Food num) : Prop :=
  let name_lower := PyStr.lower (name food) in
  PyStr.any_in protein_keywords name_lower = false
  /\ PyStr.any_in carb_keywords name_lower = false
  /\ PyStr.any_in vegetable_keywords name_lower = false
  /\ PyStr.any_in fat_keywords name_lower = false.

(** The nutrient-ratio rules, in their order, and the default. *)
Definition ratio_rule (food : Food num) : string :=
  let protein_g := get_or_zero "protein" (nutrients food) in
  let carbs_g := get_or_zero "carbs" (nutrients food) in
  let fat_g := get_or_zero "fat" (nutrients food) in
  let calories := get_or_zero "calories" (nutrients food) in
  if num_gtb calories (num_lit 0) then
    if num_gtb (num_div (num_mul protein_g (num_lit 4)) calories) (num_lit (3 # 10))
    then "proteins"
    else if num_gtb (num_div (num_mul fat_g (num_lit 9)) calories) (num_lit (5 # 10))
    then "fats"
    else if num_gtb (num_div (num_mul carbs_g (num_lit 4)) calories) (num_lit (4 # 10))
    then "carbs"
    else if num_ltb carbs_g (num_lit 10) && num_ltb calories (num_lit 50)
    then "vegetables"
    else "proteins"
  else "proteins".

(** The keywords that one of the two classifiers has and the other has not,
    or has in another list. (["oatmeal"] is left out: a name with it has
    ["oat"], a carb keyword of both. ["brussels sprout"] is left out: a name
    with it has ["brussels"].) *)
Definition differing_keywords : list string :=
  [ "pea"; "bison"; "quail"; "sardine"; "mackerel";
    "spaghetti"; "couscous"; "bulgur"; "farro";
    "brussels"; "radish"; "beet"; "turnip"; "arugula"; "chard"; "collard";
    "pecan"; "mayo"; "ghee" ].

End Categorize.
End App.

(** ** Shapes of strings *)

Module PyStrShape.

(** No character of [s] is whitespace. *)
Definition no_space (s : string) : Prop :=
  Forall (fun c => PyStr.is_space c = false) (list_ascii_of_string s).

(** A word: not empty, no whitespace. *)
Definition is_word (w : string) : Prop :=
  PyStr.is_empty w = false /\ no_space w.



End PyStrShape.

(** ** Nutrient lists *)

Module NutrientSpec.
Section NutrientSpec.
Context {num : Type} `{PyNumber num}.

(** The [nutrientId] of an entry of a nutrient list is one that
    [nutrient_mapping] sends to [key]. *)
Definition maps_to (key : string) (item : json num) : Prop :=
  exists nutrient_id,
    py_get item "nutrientId" JNull = Ok nutrient_id
    /\ USDAService.mapping_find nutrient_id = Ok (Some key).

End NutrientSpec.
End NutrientSpec.

(** ** Callers of the search *)

(** [USDAService.validate_api_connection] of [usda_service.py] and
    [gather_available_foods] of [app.py]. *)
Module Callers.
Section Callers.
Context {num : Type} `{PyNumber num} {B : Type}.
Variable requests_get : Request -> B -> result (Response num) * B.

Import USDAService.

#[local] Abbreviation search_foods := (USDAService.search_foods requests_get).

(** [try: ... return len(test_foods) > 0 except Exception: return False] *)
Definition validate_api_connection : M bool :=
  try_except
    (bind (search_foods (Some "apple") 1) (fun test_foods =>
     ret (0 <? length test_foods)%nat))
    (fun _ => true)
    (fun _ => ret false).

(** The dict [available_foods]: a list of foods under each category. *)
Definition empty_foods : gmap string (list (Food num)) :=
  <["proteins" := []]> (<["carbs" := []]> (<["vegetables" := []]> (<["fats" := []]> ∅))).

(** [available_foods[category]]; a missing key raises [KeyError], which is
    [OtherException] here. *)
Definition foods_of (available_foods : gmap string (list (Food num))) (category : string)
  : result (list (Food num)) :=
  match available_foods !! category with
  | Some foods => Ok foods
  | None => Raise OtherException
  end.

(** [for food in found_foods]: the food goes to the list of its category
    unless that list has six foods. *)
Fixpoint file_foods (found_foods : list (Food num))
    (available_foods : gmap string (list (Food num)))
  : result (gmap string (list (Food num))) :=
  match found_foods with
  | [] => Ok available_foods
  | food :: rest =>
      category ← App.categorize_food_by_nutrients food;
      if PyStr.is_empty category then file_foods rest available_foods
      else
        foods ← foods_of available_foods category;
        if (length foods <? 6)%nat
        then file_foods rest (<[category := (foods ++ [food])%list]> available_foods)
        else file_foods rest available_foods
  end.

(** [for food_term in preferred_foods] *)
Fixpoint search_preferred (preferred_foods : list string)
    (available_foods : gmap string (list (Food num)))
  : M (gmap string (list (Food num))) :=
  match preferred_foods with
  | [] => ret available_foods
  | food_term :: rest =>
      bind (search_foods (Some food_term) 3) (fun found_foods =>
      match found_foods with
      | _ :: _ =>
          bind (lift (file_foods found_foods available_foods)) (search_preferred rest)
      | [] => search_preferred rest available_foods
      end)
  end.

Definition universal_foods : list (string * list string) :=
  [ ("proteins", ["chicken breast"; "eggs"; "salmon"; "tofu"; "greek yogurt"]);
    ("carbs", ["brown rice"; "oats"; "quinoa"; "sweet potato"; "whole wheat bread"]);
    ("vegetables", ["spinach"; "broccoli"; "tomatoes"; "bell peppers"; "carrots"]);
    ("fats", ["olive oil"; "almonds"; "avocado"; "walnuts"; "peanut butter"]) ].

(** [for food_term in food_list], with its [break] at five foods and its
    [continue] on a term that a name of the list already contains. *)
Fixpoint add_universal (category : string) (food_list : list string)
    (available_foods : gmap string (list (Food num)))
  : M (gmap string (list (Food num))) :=
  match food_list with
  | [] => ret available_foods
  | food_term :: rest =>
      bind (lift (foods_of available_foods category)) (fun foods =>
      if (5 <=? length foods)%nat then ret available_foods
      else
        let existing_names := map (fun f => PyStr.lower (name f)) foods in
        if existsb (fun existing => PyStr.contains food_term existing) existing_names
        then add_universal category rest available_foods
        else
          bind (search_foods (Some food_term) 1) (fun found_foods =>
          match found_foods with
          | _ :: _ =>
              add_universal category rest
                (<[category := (foods ++ found_foods)%list]> available_foods)
          | [] => add_universal category rest available_foods
          end))
  end.

(** [for category, food_list in universal_foods.items()] *)
Fixpoint fill_universal (universal : list (string * list string))
    (available_foods : gmap string (list (Food num)))
  : M (gmap string (list (Food num))) :=
  match universal with
  | [] => ret available_foods
  | (category, food_list) :: rest =>
      bind (lift (foods_of available_foods category)) (fun foods =>
      if (length foods <? 3)%nat
      then bind (add_universal category food_list available_foods) (fill_universal rest)
      else fill_universal rest available_foods)
  end.

(** [gather_available_foods(user_data)], given [user_data['preferred_foods']];
    the printed summary is left out. *)
Definition gather_available_foods (preferred_foods : list string)
  : M (gmap string (list (Food num))) :=
  bind (search_preferred preferred_foods empty_foods) (fill_universal universal_foods).

(** The category names. *)
Definition category_names : gset string := {[ "proteins"; "carbs"; "vegetables"; "fats" ]}.

End Callers.
End Callers.

(** ** What the callers guarantee, in the terms of their comments *)

Module CallerSpec.
Section CallerSpec.
Context {num : Type} `{PyNumber num} {B : Type}.
Variable requests_get : Request -> B -> result (Response num) * B.

Import USDAService.

(** A computation that, whatever it returns, appends at most [k] requests
    to the log, each of them with the property [P]. *)
Definition issues {A} (k : nat) (P : Request -> Prop) (m : @M B A) : Prop :=
  forall w, exists new,
    calls (m w).2 = (calls w ++ new)%list /\ (length new <= k)%nat /\ Forall P new.

(** The page sizes of the two caps the gathering uses: 3 and 1. *)
Definition gather_page (r : Request) : Prop := rq_pageSize r = 6%Z \/ rq_pageSize r = 2%Z.

(** [food] is in the result of a search, with the cap [cap], for one of
    [terms]. *)
Definition found_for (terms : list string) (cap : Z) (food : Food num) : Prop :=
  exists term w found w',
    term ∈ terms
    /\ search_foods requests_get (Some term) cap w = (Ok found, w')
    /\ food ∈ found.

(** A food of the first loop: found for a preferred term and filed under
    the category the classifier gave it. *)
Definition from_preferred (preferred_foods : list string) (category : string)
    (food : Food num) : Prop :=
  App.categorize_food_by_nutrients food = Ok category
  /\ found_for preferred_foods 3 food.

(** A food of the second loop: the one result of a search for a universal
    term of the category. *)
Definition from_universal (category : string) (food : Food num) : Prop :=
  exists terms, (category, terms) ∈ Callers.universal_foods /\ found_for terms 1 food.

(** After the first loop: the four keys, at most six foods under each, all
    of them classified. *)
Definition preferred_inv (preferred_foods : list string)
    (available_foods : gmap string (list (Food num))) : Prop :=
  dom available_foods = Callers.category_names
  /\ forall category foods, available_foods !! category = Some foods ->
       (length foods <= 6)%nat /\ Forall (from_preferred preferred_foods category) foods.

(** During the second loop, [before] being the dict the first loop left:
    each list is the one of [before] with universal foods after it, and
    these are there only when the list of [before] had fewer than three
    foods, up to five foods in all. *)
Definition universal_inv (before available_foods : gmap string (list (Food num))) : Prop :=
  forall category pref, before !! category = Some pref ->
    exists univ,
      available_foods !! category = Some (pref ++ univ)%list
      /\ Forall (from_universal category) univ
      /\ (univ <> [] -> (length pref < 3)%nat /\ (length (pref ++ univ) <= 5)%nat).

(** What a search guarantees of each record: a name, calories or protein,
    and the four nutrient keys. *)
Definition usable (food : Food num) : Prop :=
  PyStr.is_empty (name food) = false
  /\ data_poor food = false
  /\ dom (nutrients food) = nutrient_keys.

End CallerSpec.
End CallerSpec.

(** ** The instance of exact rationals *)

Module QNumFacts.

Lemma ltb_false_le (a b : Q) : QNum.ltb a b = false -> (b <= a)%Q.
Proof.
  unfold QNum.ltb. intros Hf. apply negb_false_iff in Hf.
  by apply Qle_bool_iff.
Qed.

Lemma le_ltb_false (a b : Q) : (b <= a)%Q -> QNum.ltb a b = false.
Proof.
  intros Hle. unfold QNum.ltb. apply negb_false_iff. by apply Qle_bool_iff.
Qed.

Lemma pos_nonzero (c : Q) : QNum.ltb 0 c = true -> Qeq_bool c 0 = false.
Proof.
  unfold QNum.ltb. intros Hlt. apply negb_true_iff in Hlt.
  destruct (Qeq_bool c 0) eqn:Heq; [|done].
  apply Qeq_bool_iff in Heq.
  assert (Hle : Qle_bool c 0 = true) by (apply Qle_bool_iff; rewrite Heq; apply Qle_refl).
  congruence.
Qed.

Lemma floor_nonneg (x : Q) : (0 <= x)%Q -> (0 <= Qfloor x)%Z.
Proof.
  intros Hx. change 0%Z with (Qfloor 0). by apply Qfloor_resp_le.
Qed.

Lemma round_half_even_nonneg (x : Q) : (0 <= x)%Q -> (0 <= QNum.round_half_even x)%Z.
Proof.
  intros Hx. unfold QNum.round_half_even.
  pose proof (floor_nonneg x Hx) as Hf.
  assert (Hfrac : (0 <= Qfloor ((x - inject_Z (Qfloor x)) * 2))%Z).
  { apply floor_nonneg. apply Qmult_le_0_compat; [|done].
    pose proof (Qfloor_le x) as Hle.
    unfold Qminus. rewrite <- (Qplus_opp_r (inject_Z (Qfloor x))).
    by apply Qplus_le_l. }
  destruct (Qeq_bool _ 1); [destruct (Z.even _)|]; lia.
Qed.

Lemma round_nonneg (d : Z) (v : Q) :
  QNum.ltb v 0 = false -> QNum.ltb (QNum.round d v) 0 = false.
Proof.
  intros Hv. apply ltb_false_le in Hv. apply le_ltb_false.
  unfold QNum.round.
  assert (Hscale : (0 <= inject_Z (10 ^ d))%Q).
  { change 0%Q with (inject_Z 0). rewrite <- Zle_Qle. apply Z.pow_nonneg. lia. }
  assert (Hr : (0 <= inject_Z (QNum.round_half_even (v * inject_Z (10 ^ d))))%Q).
  { change 0%Q with (inject_Z 0). rewrite <- Zle_Qle.
    apply round_half_even_nonneg. by apply Qmult_le_0_compat. }
  unfold Qdiv. apply Qmult_le_0_compat; [done|]. by apply Qinv_le_0_compat.
Qed.

End QNumFacts.

#[export] Instance Q_PyNumber : PyNumber Q := {|
  num_lit := fun q => q;
  num_eqb := Qeq_bool;
  num_ltb := QNum.ltb;
  num_mul := Qmult;
  num_div := Qdiv;
  num_round := QNum.round;
  num_ltb_zero_irrefl := eq_refl;
  num_ltb_one_zero := eq_refl;
  num_pos_nonzero := QNumFacts.pos_nonzero;
  num_round_nonneg := QNumFacts.round_nonneg
|}.

(** ** Concrete responses and backends *)

Module Examples.
Import USDAService.

Definition nutrient_entry (nutrient_id : Q) (nutrient_name : string) (value : Q) : json Q :=
  JObj [ ("nutrientId", JNum nutrient_id); ("nutrientName", JStr nutrient_name);
         ("value", JNum value) ].

Definition food_entry (description : string) (food_nutrients : list (json Q)) : json Q :=
  JObj [ ("fdcId", JNum 171077%Q); ("description", JStr description);
         ("dataType", JStr "SR Legacy"); ("foodNutrients", JArr food_nutrients) ].

Definition body (foods : list (json Q)) : json Q := JObj [ ("foods", JArr foods) ].

Definition respond (status : Z) (data : json Q) : result (Response Q) :=
  Ok {| status_code := status; response_json := Ok data |}.

(** A backend without state that gives every request the same answer. *)
Definition always (answer : result (Response Q))
  : Request -> unit -> result (Response Q) * unit :=
  fun _ _ => (answer, tt).

Definition start : World unit := {| backend := tt; calls := [] |}.

Definition energy (kcal : Q) : json Q := nutrient_entry 1008 "Energy" kcal.
Definition protein (g : Q) : json Q := nutrient_entry 1003 "Protein" g.

(** The response of the deduplication example, with some nutrients. *)
Definition chicken_items : list (json Q) :=
  [ food_entry "Chicken Breast, raw" [ energy 120; protein (225 # 10) ];
    food_entry "chicken breast, RAW" [ energy 121; protein (22 # 1) ];
    food_entry "Eggs" [ energy 143; protein (126 # 10) ] ].

(** An entry without nutrients, then one of the same name with calories. *)
Definition apple_items : list (json Q) :=
  [ food_entry "Apple" []; food_entry "apple" [ energy 52 ] ].



(** The list [decode_all] makes of some items ([[]] if it raises). *)
Definition decoded (items : list (json Q)) : list (Food Q) :=
  match decode_all items with
  | Ok named => named
  | Raise _ => []
  end.



Definition record (food_name : string) (calories protein_g carbs_g fat_g : Q) : Food Q :=
  {| name := food_name;
     nutrients := <["calories" := calories]> (<["protein" := protein_g]>
                  (<["carbs" := carbs_g]> (<["fat" := fat_g]> ∅)));
     fdcId := JNull; dataType := JStr "SR Legacy" |}.

(** A backend that answers every request with three entries named after
    the query of the request. *)
Definition menu : Request -> unit -> result (Response Q) * unit :=
  fun r _ =>
    (respond 200
       (body [ food_entry (rq_query r +:+ ", raw") [ energy 100; protein 5 ];
               food_entry (rq_query r +:+ ", cooked") [ energy 110; protein 6 ];
               food_entry (rq_query r +:+ ", dried") [ energy 300; protein 15 ] ]),
     tt).

Definition menu_terms : list string := [ "chicken"; "rice"; "spinach"; "olive oil" ].

(** The dict [gather_available_foods] returns on [menu] for the one
    preferred food "chicken" ([∅] if it raises), the world it leaves, and
    the list under a category. *)
Definition gathered : gmap string (list (Food Q)) :=
  match (Callers.gather_available_foods menu ["chicken"] start).1 with
  | Ok m => m
  | Raise _ => ∅
  end.

Definition gathered_world : World unit :=
  (Callers.gather_available_foods menu ["chicken"] start).2.

Definition gathered_under (category : string) : list (Food Q) :=
  default [] (gathered !! category).

(** The dict and the world the first loop of [gather_available_foods]
    leaves on [menu] for [menu_terms]. *)
Definition preferred_found : gmap string (list (Food Q)) :=
  match (Callers.search_preferred menu menu_terms Callers.empty_foods start).1 with
  | Ok m => m
  | Raise _ => ∅
  end.

Definition preferred_world : World unit :=
  (Callers.search_preferred menu menu_terms Callers.empty_foods start).2.

(** Two protein entries recognised by their id, then one recognised by its
    name only. *)
Definition protein_items : list (json Q) :=
  [ protein 10; protein (45 # 2); nutrient_entry 9999 "Protein" 5 ].

(** An entry for a nutrient the code does not collect. *)
Definition calcium : json Q := nutrient_entry 1087 "Calcium, Ca" 12.

(** What [_extract_nutrients] makes of a list ([∅] if it raises). *)
Definition extracted (items : list (json Q)) : gmap string Q :=
  match _extract_nutrients (JArr items) with
  | Ok m => m
  | Raise _ => ∅
  end.

(** What [_parse_food_data] makes of a response ([[]] if it raises). *)
Definition parsed (items : list (json Q)) (n : Z) : list (Food Q) :=
  match _parse_food_data (body items) n with
  | Ok foods => foods
  | Raise _ => []
  end.

(** The backend that refuses every request with the status 400. *)
Definition refusing : Request -> unit -> result (Response Q) * unit :=
  always (respond 400 (body [])).

End Examples.

(** * Properties of the search cascade *)

Section SearchProperties.
Context {num : Type} `{PyNumber num} {B : Type}.
Variable requests_get : Request -> B -> result (Response num) * B.

Import USDAService.

#[local] Abbreviation search := (search_foods requests_get).
#[local] Abbreviation run := (run_strategy requests_get).
#[local] Abbreviation cascade_run := (USDAService.cascade_run requests_get).

Lemma is_empty_true (s : string) : PyStr.is_empty s = true -> s = EmptyString.
Proof. by destruct s. Qed.

(** A query that cleans to something passes the two guards of [search_foods]. *)
Lemma clean_query_Some (q cleaned : string) :
  _clean_query (Some q) = Some cleaned ->
  PyStr.is_empty q = false /\ PyStr.is_empty (PyStr.strip q) = false
  /\ PyStr.is_empty cleaned = false.
Proof.
  unfold _clean_query. destruct (PyStr.is_empty q) eqn:Hq; [done|].
  destruct (PyStr.is_empty (PyStr.strip q)) eqn:Hs.
  - apply is_empty_true in Hs. rewrite Hs. done.
  - destruct (_ <? 2)%nat eqn:Hlen; [done|]. intros [= <-].
    repeat split; try done.
    destruct (PyStr.join _ _); [done|done].
Qed.

Lemma search_strategies_cascade (cleaned : string) (n : Z) :
  search_strategies requests_get cleaned n = map (run n) (cascade cleaned).
Proof. reflexivity. Qed.

(** The loop over the strategies never raises, and what it does is a run of
    the cascade. *)
Lemma try_strategies_run (n : Z) (ss : list Strategy) (w : World B) :
  exists foods w',
    try_strategies (map (run n) ss) w = (Ok foods, w') /\ cascade_run n ss w foods w'.
Proof.
  revert w. induction ss as [|s rest IH]; intros w.
  - exists [], w. split; [done | constructor].
  - cbn [map try_strategies].
    destruct (run n s w) as [r w1] eqn:Hrun.
    destruct r as [[|food foods]|e].
    + destruct (IH w1) as (fs & w2 & Heq & Hrel). exists fs, w2. split; [done|].
      by eapply cascade_miss.
    + exists (food :: foods), w1. split; [done|]. by apply cascade_hit.
    + destruct (IH w1) as (fs & w2 & Heq & Hrel). exists fs, w2. split; [done|].
      by eapply cascade_miss.
Qed.

(** A run of the cascade has one outcome. *)
Lemma cascade_run_functional (n : Z) (ss : list Strategy) (w : World B)
    (foods1 foods2 : list (Food num)) (w1 w2 : World B) :
  cascade_run n ss w foods1 w1 -> cascade_run n ss w foods2 w2 ->
  foods1 = foods2 /\ w1 = w2.
Proof.
  intros H1. revert foods2 w2.
  induction H1 as [w|s rest w food foods w' Hrun|s rest w r w' foods w'' Hrun Hnone _ IH];
    intros foods2 w2 H2; inversion H2; subst;
    try match goal with
        | Ha : ?x = _, Hb : ?x = _ |- _ => rewrite Ha in Hb; simplify_eq
        end.
  - done.
  - done.
  - done.
  - done.
  - by apply IH.
Qed.

(** A rejected query: the empty list, in the world the call started in. *)
Lemma search_rejected (q : option string) (n : Z) (w : World B) :
  _clean_query q = None -> search q n w = (Ok [], w).
Proof.
  intros Hclean. unfold search_foods. destruct q as [q|]; [|done].
  destruct (PyStr.is_empty q || PyStr.is_empty (PyStr.strip q)); [done|].
  by rewrite Hclean.
Qed.

(** An accepted query: a run of the cascade, and the only one. *)
Lemma search_runs_cascade (q : option string) (n : Z) (w : World B) (cleaned : string) :
  _clean_query q = Some cleaned ->
  exists foods w',
    search q n w = (Ok foods, w')
    /\ cascade_run n (cascade cleaned) w foods w'
    /\ (forall foods2 w2, cascade_run n (cascade cleaned) w foods2 w2 ->
          foods2 = foods /\ w2 = w').
Proof.
  intros Hclean. destruct q as [q|]; [|done].
  destruct (clean_query_Some _ _ Hclean) as (Hq & Hs & Hc).
  destruct (try_strategies_run n (cascade cleaned) w) as (foods & w' & Heq & Hrel).
  exists foods, w'. split; [|split; [done|]].
  - unfold search_foods. rewrite Hq, Hs, Hclean, Hc. cbn [orb].
    by rewrite search_strategies_cascade.
  - intros foods2 w2 H2. by eapply cascade_run_functional.
Qed.



(** C9, as the code has it. The requests of one strategy invocation:
    the first request always; when its answer has status 400 and the
    strategy asked for all words, one more request, equal to the first
    except that [requireAllWords] is false; in every other case (another
    status, a raised exception, all words not required) no second request.
    So a strategy issues one or two requests. *)
Theorem search_with_params_requests (query : string) (n : Z)
    (data_types : option (list string)) (require_all_words : bool) (w : World B) :
  let p := first_request query n data_types require_all_words in
  let w' := (_search_with_params requests_get query n data_types require_all_words w).2 in
  match requests_get p (backend w) with
  | (Ok response, b1) =>
      if (status_code response =? 400)%Z && require_all_words
      then calls w' = (calls w ++ [p; relaxed p])%list
           /\ backend w' = (requests_get (relaxed p) b1).2
      else calls w' = (calls w ++ [p])%list /\ backend w' = b1
  | (Raise _, b1) => calls w' = (calls w ++ [p])%list /\ backend w' = b1
  end.
Proof.
  cbv zeta. unfold _search_with_params, first_request, try_except, bind, http_get, lift, ret.
  destruct (truthy_list data_types); cbn [rq_query rq_pageSize rq_requireAllWords rq_dataType];
    (destruct (requests_get _ (backend w)) as [[response|e] b1] eqn:Hfirst; cbn;
     [ destruct (status_code response =? 200)%Z eqn:H200;
       [ assert ((status_code response =? 400)%Z = false) as -> by lia; cbn;
         destruct (response_json response) as [data|e]; cbn;
         [ destruct (_parse_food_data data n) as [foods|e]; cbn |];
         try destruct (is_RequestException e); done
       | destruct (status_code response =? 400)%Z eqn:H400; cbn; [|done];
         destruct require_all_words; cbn; [|done];
         unfold relaxed; cbn;
         destruct (requests_get _ b1) as [[response2|e] b2] eqn:Hsecond; cbn;
         [ destruct (status_code response2 =? 200)%Z; cbn;
           [ destruct (response_json response2) as [data|e]; cbn;
             [ destruct (_parse_food_data data n) as [foods|e]; cbn |] |] |];
         try destruct (is_RequestException e); cbn; by rewrite <- app_assoc ]
     | destruct (is_RequestException e); done ]).
Qed.

(** What [_clean_query] rejects: the absent query, and the strings that
    have fewer than two characters once trimmed and collapsed; the empty
    string and the strings of whitespace are among them. *)
Lemma clean_query_None (q : option string) :
  _clean_query q = None <->
  q = None
  \/ exists s, q = Some s
       /\ (String.length (PyStr.join " " (PyStr.split (PyStr.strip s))) < 2)%nat.
Proof.
  destruct q as [s|]; [|by split; [left|]]. cbn [_clean_query]. split.
  - intros Hnone. right. exists s. split; [done|].
    destruct (PyStr.is_empty s) eqn:Hs.
    + apply is_empty_true in Hs. subst s. cbn. lia.
    + destruct (_ <? 2)%nat eqn:Hlen; [|done]. by apply Nat.ltb_lt.
  - intros [Hq|(s' & [= <-] & Hlen)]; [done|].
    destruct (PyStr.is_empty s); [done|].
    apply Nat.ltb_lt in Hlen. by rewrite Hlen.
Qed.

Lemma lstrip_whitespace (s : string) :
  Forall (fun c => PyStr.is_space c = true) (list_ascii_of_string s) ->
  PyStr.lstrip s = EmptyString.
Proof.
  induction s as [|c s IH]; [done|]. cbn [list_ascii_of_string PyStr.lstrip].
  intros [Hc Hs]%Forall_cons. rewrite Hc. by apply IH.
Qed.

Lemma clean_query_whitespace (s : string) :
  Forall (fun c => PyStr.is_space c = true) (list_ascii_of_string s) ->
  _clean_query (Some s) = None.
Proof.
  intros Hs. apply clean_query_None. right. exists s. split; [done|].
  unfold PyStr.strip. rewrite (lstrip_whitespace s Hs). cbn. lia.
Qed.

(** C7. A query that [_clean_query] rejects (absent, empty, made of
    whitespace only, or shorter than two characters once its whitespace runs
    are collapsed and its ends trimmed) makes [search_foods] return the empty
    list in the world it started in: no request is issued and the backend is
    not touched. *)
Theorem search_foods_rejected_query (q : option string) (n : Z) (w : World B) :
  _clean_query q = None ->
  search q n w = (Ok [], w) /\ calls (search q n w).2 = calls w.
Proof.
  intros Hclean. by rewrite (search_rejected q n w Hclean).
Qed.

(** C1. For a query that cleans to [cleaned], [search_foods] is a run of
    the five-row cascade in the order of the table: strategies are run one
    after the other, the first non-empty output is returned as it is, and
    the world returned is the one that strategy left, so no later strategy
    has issued a request. The run is unique. *)
Theorem search_foods_cascade (q : option string) (n : Z) (w : World B) (cleaned : string) :
  _clean_query q = Some cleaned ->
  exists foods w',
    search q n w = (Ok foods, w')
    /\ cascade_run n (cascade cleaned) w foods w'
    /\ (forall foods2 w2, cascade_run n (cascade cleaned) w foods2 w2 ->
          foods2 = foods /\ w2 = w').
Proof. apply search_runs_cascade. Qed.

End SearchProperties.

(** * Properties of nutrient extraction and of post-processing *)

Section ParseProperties.
Context {num : Type} `{PyNumber num}.

Import USDAService.

Lemma bind_Ok {A C} (m : result A) (k : A -> result C) (c : C) :
  m ≫= k = Ok c -> exists a, m = Ok a /\ k a = Ok c.
Proof. destruct m as [a|e]; [|done]. intros Hk. by exists a. Qed.

(** Take a hypothesis [H : ... = Ok _] apart along the binds, tests and
    matches of the code it comes from. *)
Ltac unfold_run H :=
  repeat
    first
    [ progress cbn [mbind result_bind mret result_ret] in H
    | match type of H with
      | Raise _ = Ok _ => discriminate H
      | mbind _ ?m = Ok _ =>
          let a := fresh "a" in let E := fresh "E" in
          destruct m as [a|?] eqn:E
      | result_bind _ _ _ ?m = Ok _ =>
          let a := fresh "a" in let E := fresh "E" in
          destruct m as [a|?] eqn:E
      | (if ?c then _ else _) = Ok _ =>
          let E := fresh "E" in destruct c eqn:E
      | match ?o with Some _ => _ | None => _ end = Ok _ =>
          let E := fresh "E" in destruct o eqn:E
      end ].

Lemma nutrient_keys_elem (key : string) :
  key ∈ nutrient_keys <->
  key = "calories" \/ key = "protein" \/ key = "carbs" \/ key = "fat".
Proof.
  unfold nutrient_keys. rewrite !elem_of_union, !elem_of_singleton. tauto.
Qed.

Lemma mapping_find_key (nutrient_id : json num) (key : string) :
  mapping_find nutrient_id = Ok (Some key) -> key ∈ nutrient_keys.
Proof.
  assert (Hfind : forall v, (snd <$> List.find
            (fun kv : Q * string => num_eqb v (num_lit kv.1)) nutrient_mapping)
            = Some key -> key ∈ nutrient_keys).
  { intros v. unfold nutrient_mapping. cbn.
    repeat (destruct (num_eqb v _); [intros [= <-]; apply nutrient_keys_elem; auto|]).
    done. }
  destruct nutrient_id; unfold mapping_find; cbv zeta beta; intros Hk;
    try discriminate Hk; injection Hk as Hk; eapply Hfind; exact Hk.
Qed.

(** Whatever holds of the empty mapping and is kept by every assignment
    [nutrients[key] = round(value, ndigits)] the loop can make holds of
    its result. *)
Lemma extract_loop_inv (P : gmap string num -> Prop)
    (items : list (json num)) (nutrients out : gmap string num) :
  extract_loop items nutrients = Ok out ->
  P nutrients ->
  (forall m key item value ndigits v,
      P m -> key ∈ nutrient_keys -> item ∈ items ->
      py_get item "value" (JNum (num_lit 0)) = Ok value ->
      is_none_or_zero value = false ->
      py_round value ndigits = Ok v ->
      P (<[key := v]> m)) ->
  P out.
Proof.
  revert nutrients. induction items as [|item rest IH]; intros nutrients Hloop Hm Hstep.
  - cbn in Hloop. by simplify_eq.
  - assert (Hrest : forall m0 key item0 value ndigits v,
      P m0 -> key ∈ nutrient_keys -> item0 ∈ rest ->
      py_get item0 "value" (JNum (num_lit 0)) = Ok value ->
      is_none_or_zero value = false ->
      py_round value ndigits = Ok v -> P (<[key := v]> m0)).
    { intros m0 key item0 value ndigits v HP Hkey Hin Hget Hnz Hround.
      eapply Hstep; eauto. by apply list_elem_of_further. }
    assert (Hhere : forall key value ndigits v,
      key ∈ nutrient_keys ->
      py_get item "value" (JNum (num_lit 0)) = Ok value ->
      is_none_or_zero value = false ->
      py_round value ndigits = Ok v -> P (<[key := v]> nutrients)).
    { intros key value ndigits v Hkey Hget Hnz Hround.
      eapply Hstep; eauto. apply list_elem_of_here. }
    cbn [extract_loop] in Hloop. unfold_run Hloop;
      try (eapply IH; [exact Hloop| |exact Hrest]; try done);
      try (eapply Hhere; [|done..]; apply nutrient_keys_elem; by auto).
    eapply Hhere; [|done..]. by eapply mapping_find_key.
Qed.

Lemma default_step_lookup (m : gmap string num) (key k : string) :
  (if has_key key m then m else <[key := num_lit 0]> m) !! k =
    match m !! k with
    | Some v => Some v
    | None => if bool_decide (k = key) then Some (num_lit 0) else None
    end.
Proof.
  unfold has_key. case_bool_decide as Hkey.
  - destruct (m !! k) as [v|] eqn:Hk; [done|]. case_bool_decide; [|done].
    subst. rewrite Hk in Hkey. by destruct Hkey.
  - apply eq_None_not_Some in Hkey. rewrite lookup_insert.
    case_decide; case_bool_decide; subst; try done.
    + by rewrite Hkey.
    + by destruct (m !! k).
Qed.

Lemma fill_defaults_lookup (m : gmap string num) (key : string) :
  fill_defaults m !! key =
    match m !! key with
    | Some v => Some v
    | None => if bool_decide (key ∈ nutrient_keys) then Some (num_lit 0) else None
    end.
Proof.
  unfold fill_defaults. cbn [foldl]. rewrite !default_step_lookup.
  destruct (m !! key) as [v|]; [done|].
  repeat case_bool_decide; try done;
    match goal with
    | Hn : key ∉ nutrient_keys |- _ => exfalso; apply Hn, nutrient_keys_elem; auto
    | Hi : key ∈ nutrient_keys |- _ =>
        apply nutrient_keys_elem in Hi; destruct Hi as [->|[->|[->| ->]]]; done
    end.
Qed.

(** The mapping [_extract_nutrients] returns has exactly the four keys. *)
Lemma extract_nutrients_dom (nutrients_list : json num) (m : gmap string num) :
  _extract_nutrients nutrients_list = Ok m -> dom m = nutrient_keys.
Proof.
  unfold _extract_nutrients. intros Hrun. unfold_run Hrun. injection Hrun as <-.
  assert (Hsub : dom a0 ⊆ nutrient_keys).
  { eapply (extract_loop_inv (fun m => dom m ⊆ nutrient_keys)); [exact E0| |].
    - rewrite dom_empty_L. apply empty_subseteq.
    - intros m key _ _ _ v Hm Hkey _ _ _ _. rewrite dom_insert_L.
      apply union_least; [|done]. by apply singleton_subseteq_l. }
  apply set_eq. intros k. rewrite elem_of_dom, fill_defaults_lookup.
  destruct (a0 !! k) as [v|] eqn:Hk.
  - split; [|by eauto]. intros _. apply Hsub, elem_of_dom. by eauto.
  - case_bool_decide; split; try done; intros Hs; try by destruct Hs.
Qed.


Lemma decode_item_accepted (item : json num) (description : string)
    (nutrients : gmap string num) (fdc dt : json num) :
  py_get item "description" (JStr "") ≫= py_strip = Ok description ->
  PyStr.is_empty description = false ->
  py_get item "foodNutrients" (JArr []) ≫= _extract_nutrients = Ok nutrients ->
  py_get item "fdcId" JNull = Ok fdc ->
  py_get item "dataType" (JStr "Unknown") = Ok dt ->
  decode_item item = Ok (Some {| name := description; nutrients := nutrients;
                                 fdcId := fdc; dataType := dt |}).
Proof.
  intros Hd Hne Hn Hf Ht. unfold decode_item.
  rewrite Hd. cbn. rewrite Hne, Hn. cbn. rewrite Hf. cbn. by rewrite Ht.
Qed.

Lemma NoDup_name_key_snoc (foods : list (Food num)) (f : Food num) (seen : gset string) :
  NoDup (map name_key foods) ->
  (forall g, g ∈ foods -> name_key g ∈ seen) ->
  name_key f ∉ seen ->
  NoDup (map name_key (foods ++ [f])).
Proof.
  intros Hnd Hseen Hf. rewrite map_app. apply NoDup_app. split; [done|].
  split; [|apply NoDup_singleton].
  intros k Hk Hk'. apply list_elem_of_singleton in Hk'. subst k.
  apply (list_elem_of_fmap name_key) in Hk as (g & Hkey & Hg).
  apply Hf. rewrite Hkey. by apply Hseen.
Qed.

(** What [parse_loop] adds to [foods]: entries of the response, each
    decoded on its own, none of them poor in data; and the lower-cased names
    stay pairwise distinct as long as [seen_names] holds those of [foods]. *)
Lemma parse_loop_inv (items : list (json num)) (n : Z)
    (foods : list (Food num)) (seen : gset string) (out : list (Food num)) :
  parse_loop items n foods seen = Ok out ->
  exists more,
    out = (foods ++ more)%list
    /\ Forall (fun f => exists item, item ∈ items /\ decode_item item = Ok (Some f)
                        /\ data_poor f = false) more
    /\ (NoDup (map name_key foods) ->
        (forall f, f ∈ foods -> name_key f ∈ seen) ->
        NoDup (map name_key out)).
Proof.
  revert foods seen. induction items as [|item rest IH]; intros foods seen Hloop.
  - cbn in Hloop. injection Hloop as <-. exists []. rewrite app_nil_r. by repeat split.
  - assert (Hweaken : forall more : list (Food num),
      Forall (fun f => exists it, it ∈ rest /\ decode_item it = Ok (Some f)
                       /\ data_poor f = false) more ->
      Forall (fun f => exists it, it ∈ item :: rest /\ decode_item it = Ok (Some f)
                       /\ data_poor f = false) more).
    { intros more Hall. eapply Forall_impl; [exact Hall|]. intros f (it & Hin & Hdec).
      exists it. split; [by apply list_elem_of_further | done]. }
    cbn [parse_loop] in Hloop. unfold_run Hloop;
      try (destruct (IH _ _ Hloop) as (more & -> & Hmore & Hdup);
           exists more; by auto).
    + (* accepted, and the cap is reached *)
      injection Hloop as Hout. clear IH.
      pose proof (decode_item_accepted _ _ _ _ _ E E0 E2 E4 E5) as Hdec.
      apply bool_decide_eq_false in E1.
      exists [{| name := a; nutrients := a0; fdcId := a1; dataType := a2 |}].
      split; [done|]. split.
      * constructor; [|done]. exists item. split; [apply list_elem_of_here|].
        split; [done|]. exact E3.
      * intros Hnd Hseen. rewrite <- Hout. by eapply NoDup_name_key_snoc.
    + (* accepted, and the loop goes on *)
      pose proof (decode_item_accepted _ _ _ _ _ E E0 E2 E4 E5) as Hdec.
      apply bool_decide_eq_false in E1.
      destruct (IH _ _ Hloop) as (more & -> & Hmore & Hdup).
      exists ({| name := a; nutrients := a0; fdcId := a1; dataType := a2 |} :: more).
      split; [by rewrite <- app_assoc|]. split.
      * constructor; [|by auto]. exists item. split; [apply list_elem_of_here|].
        split; [done|]. exact E3.
      * intros Hnd Hseen. apply Hdup.
        -- by eapply NoDup_name_key_snoc.
        -- intros g Hg. apply elem_of_app in Hg as [Hg|Hg].
           ++ apply elem_of_union_r. by apply Hseen.
           ++ apply list_elem_of_singleton in Hg. subst g.
              apply elem_of_union_l. by apply elem_of_singleton.
Qed.

(** The loop stops at the cap, but only after it has accepted an entry. *)
Lemma parse_loop_length (items : list (json num)) (n : Z)
    (foods : list (Food num)) (seen : gset string) (out : list (Food num)) :
  parse_loop items n foods seen = Ok out ->
  (Z.of_nat (length out) <= Z.max n (Z.of_nat (length foods) + 1))%Z.
Proof.
  revert foods seen. induction items as [|item rest IH]; intros foods seen Hloop.
  - cbn in Hloop. injection Hloop as <-. lia.
  - cbn [parse_loop] in Hloop. unfold_run Hloop; try (by eapply IH).
    + injection Hloop as <-. rewrite length_app. cbn. lia.
    + apply IH in Hloop. rewrite Z.geb_leb in E6. apply Z.leb_gt in E6.
      rewrite length_app in Hloop, E6. cbn in Hloop, E6. lia.
Qed.

Lemma decode_item_named (item : json num) (f : Food num) :
  decode_item item = Ok (Some f) ->
  PyStr.is_empty (name f) = false
  /\ exists nutrients_list, _extract_nutrients nutrients_list = Ok (nutrients f).
Proof.
  unfold decode_item. intros Hdec. unfold_run Hdec; simplify_eq. cbn.
  split; [exact E0|]. apply bind_Ok in E1 as (nl & _ & Hnl). by exists nl.
Qed.

Lemma dedup_first_fresh (l : list (Food num)) (seen : gset string) (f : Food num) :
  f ∈ dedup_first l seen -> name_key f ∉ seen.
Proof.
  revert seen. induction l as [|g rest IH]; intros seen; cbn [dedup_first].
  - by intros ?%elem_of_nil.
  - case_bool_decide as Hg; [by apply IH|].
    intros [->|Hin]%elem_of_cons; [done|].
    apply IH in Hin. intros Hs. apply Hin. by apply elem_of_union_r.
Qed.

Lemma dedup_first_NoDup (l : list (Food num)) (seen : gset string) :
  NoDup (map name_key (dedup_first l seen)).
Proof.
  revert seen. induction l as [|g rest IH]; intros seen; cbn [dedup_first].
  - constructor.
  - case_bool_decide as Hg; [by apply IH|]. cbn [map]. apply NoDup_cons. split; [|by apply IH].
    intros (f & Hkey & Hin)%(list_elem_of_fmap name_key).
    apply dedup_first_fresh in Hin. apply Hin. rewrite <- Hkey.
    apply elem_of_union_l. by apply elem_of_singleton.
Qed.

(** On a response all of whose entries decode, the loop computes the
    pipeline: drop the data-poor entries, keep the first entry of each
    lower-cased name, stop at the cap. *)
Lemma parse_loop_postprocess (items : list (json num)) (named : list (Food num)) (n : Z)
    (foods : list (Food num)) (seen : gset string) :
  decode_all items = Ok named ->
  (Z.of_nat (length foods) < n)%Z ->
  parse_loop items n foods seen =
    Ok (foods ++ take (Z.to_nat n - length foods)
                      (dedup_first (List.filter (fun f => negb (data_poor f)) named) seen))%list.
Proof.
  revert named foods seen.
  induction items as [|item rest IH]; intros named foods seen Hall Hlen.
  - cbn in Hall. injection Hall as <-. cbn. by rewrite take_nil, app_nil_r.
  - cbn [decode_all] in Hall. unfold_run Hall. injection Hall as <-.
    unfold decode_item in E. unfold_run E; simplify_eq.
    + (* an entry without a name *)
      cbn [parse_loop]. rewrite E1. cbn. rewrite E2. by apply IH.
    + (* a named entry *)
      cbn [parse_loop]. rewrite E1. cbn. rewrite E2, E3. cbn. rewrite E4, E5. cbn.
      cbn [List.filter].
      change (data_poor {| name := a1; nutrients := a2; fdcId := a3; dataType := a4 |})
        with (get_falsy "calories" a2 && get_falsy "protein" a2).
      destruct (get_falsy "calories" a2 && get_falsy "protein" a2);
        cbn [negb dedup_first];
        change (name_key {| name := a1; nutrients := a2; fdcId := a3; dataType := a4 |})
          with (PyStr.lower a1);
        destruct (bool_decide (PyStr.lower a1 ∈ seen)) eqn:Hseen;
        try (by apply IH).
      destruct (Z.to_nat n - length foods)%nat as [|k] eqn:Hk; [lia|].
      cbn [take]. rewrite length_app. cbn [length].
      rewrite Z.geb_leb. destruct (n <=? Z.of_nat (length foods + 1))%Z eqn:Hcap.
      * apply Z.leb_le in Hcap. assert (k = 0)%nat as -> by lia. by rewrite take_0.
      * apply Z.leb_gt in Hcap. rewrite (IH a0); [|done|rewrite length_app; cbn; lia].
        rewrite <- app_assoc. cbn. rewrite length_app. cbn [length].
        by replace (Z.to_nat n - (length foods + 1))%nat with k by lia.
Qed.

(** The records [_parse_food_data] returns: distinct lower-cased names,
    no empty name, calories or protein. *)
Lemma parse_food_data_accepts (data : json num) (n : Z) (out : list (Food num)) :
  _parse_food_data data n = Ok out ->
  NoDup (map name_key out)
  /\ Forall (fun f => PyStr.is_empty (name f) = false /\ data_poor f = false) out.
Proof.
  unfold _parse_food_data. intros Hrun. unfold_run Hrun.
  destruct (parse_loop_inv _ _ _ _ _ Hrun) as (more & -> & Hmore & Hdup).
  rewrite app_nil_l in *. split.
  - apply Hdup; [constructor|]. by intros f ?%elem_of_nil.
  - eapply Forall_impl; [exact Hmore|]. intros f (item & _ & Hdec & Hpoor).
    split; [|done]. by apply decode_item_named in Hdec as [? _].
Qed.

(** C3, as the code has it. For every response, the records
    [_parse_food_data] returns have pairwise distinct lower-cased names,
    non-empty names, and calories or protein; and on a response all of
    whose entries decode, for a cap of at least one, the result is the
    pipeline in the order of the code: entries without a name are dropped,
    then the data-poor ones, then of each lower-cased name the first entry
    left is kept, in source order, and the list is cut at the cap. An entry
    is thus a duplicate of an earlier accepted entry only, not of an earlier
    entry that was dropped for its poor data. *)
Theorem parse_food_data_postprocess (data : json num) (n : Z) :
  (forall out,
      _parse_food_data data n = Ok out ->
      NoDup (map name_key out)
      /\ Forall (fun f => PyStr.is_empty (name f) = false /\ data_poor f = false) out)
  /\ (forall items named,
        py_get data "foods" (JArr []) ≫= py_iter = Ok items ->
        decode_all items = Ok named ->
        (1 <= n)%Z ->
        _parse_food_data data n = Ok (postprocess named n))
  /\ (forall named, NoDup (map name_key (postprocess named n))).
Proof.
  split; [|split].
  - apply parse_food_data_accepts.
  - intros items named Hitems Hall Hn. unfold _parse_food_data. rewrite Hitems. cbn.
    rewrite (parse_loop_postprocess _ named); [|done|cbn; lia].
    unfold postprocess. cbn [length app]. by rewrite Nat.sub_0_r.
  - intros named. unfold postprocess.
    eapply sublist_NoDup; [apply dedup_first_NoDup|].
    apply (fmap_sublist name_key), sublist_take.
Qed.

End ParseProperties.

(** * Properties of the records a search returns *)

Section ResultProperties.
Context {num : Type} `{PyNumber num} {B : Type}.
Variable requests_get : Request -> B -> result (Response num) * B.

Import USDAService.

#[local] Abbreviation search := (search_foods requests_get).

(** What a strategy returns is empty or the outcome of post-processing a
    response body with the cap of the call. *)
Lemma search_with_params_result (query : string) (n : Z)
    (data_types : option (list string)) (require_all_words : bool)
    (w w' : World B) (foods : list (Food num)) :
  _search_with_params requests_get query n data_types require_all_words w = (Ok foods, w') ->
  foods = [] \/ exists data, _parse_food_data data n = Ok foods.
Proof.
  unfold _search_with_params, try_except, bind, http_get, lift, ret.
  destruct (requests_get _ (backend w)) as [[response|e] b1];
    [|destruct (is_RequestException e); intros [= <- _]; by left].
  destruct (status_code response =? 200)%Z.
  { destruct (response_json response) as [data|e]; cbn -[_parse_food_data].
    - destruct (_parse_food_data data n) as [out|e] eqn:Hparse; cbn.
      + intros [= <- _]. right. by exists data.
      + destruct (is_RequestException e); intros [= <- _]. by left.
    - destruct (is_RequestException e); intros [= <- _]. by left. }
  destruct (status_code response =? 400)%Z; [|intros [= <- _]; by left].
  destruct require_all_words; [|intros [= <- _]; by left].
  cbn -[_parse_food_data].
  destruct (requests_get _ b1) as [[response2|e] b2];
    [|destruct (is_RequestException e); intros [= <- _]; by left].
  destruct (status_code response2 =? 200)%Z; [|intros [= <- _]; by left].
  destruct (response_json response2) as [data|e]; cbn -[_parse_food_data].
  - destruct (_parse_food_data data n) as [out|e] eqn:Hparse; cbn.
    + intros [= <- _]. right. by exists data.
    + destruct (is_RequestException e); intros [= <- _]. by left.
  - destruct (is_RequestException e); intros [= <- _]. by left.
Qed.

Lemma cascade_run_result (n : Z) (ss : list Strategy) (w w' : World B)
    (foods : list (Food num)) :
  cascade_run requests_get n ss w foods w' ->
  foods = [] \/ exists data, _parse_food_data data n = Ok foods.
Proof.
  induction 1 as [|s rest w food foods w' Hhit|]; [by left| |done].
  by eapply search_with_params_result.
Qed.

(** So is what [search_foods] returns: results are never merged. *)
Lemma search_foods_result (q : option string) (n : Z) (w w' : World B)
    (foods : list (Food num)) :
  search q n w = (Ok foods, w') ->
  foods = [] \/ exists data, _parse_food_data data n = Ok foods.
Proof.
  intros Hsearch. destruct (_clean_query q) as [cleaned|] eqn:Hclean.
  - destruct (search_runs_cascade requests_get q n w cleaned Hclean)
      as (foods' & w'' & Heq & Hrun & _).
    rewrite Heq in Hsearch. injection Hsearch as <- <-.
    by eapply cascade_run_result.
  - rewrite (search_rejected requests_get q n w Hclean) in Hsearch.
    injection Hsearch as <- _. by left.
Qed.

(** For a cap of at least one, a search returns at most that many records;
    below one, at most one. *)
Lemma search_foods_length (q : option string) (n : Z) (w w' : World B)
    (foods : list (Food num)) :
  search q n w = (Ok foods, w') ->
  (Z.of_nat (length foods) <= Z.max n 1)%Z.
Proof.
  intros [->|(data & Hparse)]%search_foods_result; [cbn; lia|].
  unfold _parse_food_data in Hparse.
  apply bind_Ok in Hparse as (items & _ & Hloop).
  apply parse_loop_length in Hloop. cbn in Hloop. lia.
Qed.

(** The records of one result list have pairwise distinct lower-cased
    names. *)
Lemma search_foods_distinct (q : option string) (n : Z) (w w' : World B)
    (foods : list (Food num)) :
  search q n w = (Ok foods, w') -> NoDup (map name_key foods).
Proof.
  intros [->|(data & Hparse)]%search_foods_result; [constructor|].
  by apply (parse_food_data_accepts data n).
Qed.


End ResultProperties.

(** * Properties of the two classifiers *)

Section CategorizeProperties.
Context {num : Type} `{PyNumber num}.

Lemma starts_with_app (p q s : string) :
  PyStr.starts_with (p +:+ q) s = true -> PyStr.starts_with p s = true.
Proof.
  revert s. induction p as [|c p IH]; intros s; [done|].
  destruct s as [|d s]; simpl; [done|]. destruct (Ascii.eqb c d); [apply IH|done].
Qed.

(** A name that contains a word contains every prefix of it. *)
Lemma contains_app (p q s : string) :
  PyStr.contains (p +:+ q) s = true -> PyStr.contains p s = true.
Proof.
  induction s as [|d s IH]; cbn [PyStr.contains].
  - destruct (PyStr.starts_with (p +:+ q) "") eqn:Hpq; [|done].
    by rewrite (starts_with_app _ _ _ Hpq).
  - destruct (PyStr.starts_with (p +:+ q) (String d s)) eqn:Hpq.
    + by rewrite (starts_with_app _ _ _ Hpq).
    + intros Hrest. rewrite (IH Hrest). by destruct (PyStr.starts_with p (String d s)).
Qed.

Lemma any_in_intro (keywords : list string) (s keyword : string) :
  existsb (String.eqb keyword) keywords = true ->
  PyStr.contains keyword s = true -> PyStr.any_in keywords s = true.
Proof.
  intros Hin Hc. apply existsb_exists in Hin as (k & Hk & Heq).
  apply String.eqb_eq in Heq. subst k.
  unfold PyStr.any_in. apply existsb_exists. by exists keyword.
Qed.

Lemma any_in_false (keywords : list string) (s keyword : string) :
  PyStr.any_in keywords s = false ->
  existsb (String.eqb keyword) keywords = true ->
  PyStr.contains keyword s = false.
Proof.
  intros Hnone Hin. destruct (PyStr.contains keyword s) eqn:Hc; [|done].
  by rewrite (any_in_intro _ _ _ Hin Hc) in Hnone.
Qed.

Lemma any_in_transfer (l1 l2 : list string) (s : string) :
  Forall (fun keyword => PyStr.contains keyword s = true -> PyStr.any_in l2 s = true) l1 ->
  PyStr.any_in l1 s = true -> PyStr.any_in l2 s = true.
Proof.
  intros Hall (k & Hk & Hc)%existsb_exists.
  rewrite Forall_forall in Hall. apply (Hall k); [|done]. by apply list_elem_of_In.
Qed.

Lemma any_in_same (l1 l2 : list string) (s : string) :
  Forall (fun keyword => PyStr.contains keyword s = true -> PyStr.any_in l2 s = true) l1 ->
  Forall (fun keyword => PyStr.contains keyword s = true -> PyStr.any_in l1 s = true) l2 ->
  PyStr.any_in l1 s = PyStr.any_in l2 s.
Proof.
  intros H12 H21. apply eq_true_iff_eq. split.
  - by apply any_in_transfer.
  - by apply any_in_transfer.
Qed.

(** Without a keyword, the classifier of [app.py] follows the ratio rules;
    the guard [calories > 0] keeps the divisions from raising. *)
Lemma categorize_no_keyword (food : Food num) :
  App.no_keyword food ->
  App.categorize_food_by_nutrients food = Ok (App.ratio_rule food).
Proof.
  intros (Hp & Hc & Hv & Hf).
  unfold App.categorize_food_by_nutrients, App.ratio_rule. rewrite Hp, Hc, Hv, Hf.
  destruct (num_gtb (App.get_or_zero "calories" (nutrients food)) (num_lit 0)) eqn:Hpos;
    [|done].
  unfold App.py_div. rewrite (num_pos_nonzero _ Hpos). cbn.
  repeat match goal with |- context [if ?c then _ else _] => destruct c end; done.
Qed.


(** The keyword lists are tried in the order protein, carbs, vegetables,
    fats, and the first list with a keyword in the name decides, whatever
    the nutrients. *)
Lemma categorize_keyword_order (food : Food num) :
  let name_lower := PyStr.lower (name food) in
  (PyStr.any_in App.protein_keywords name_lower = true ->
     App.categorize_food_by_nutrients food = Ok "proteins")
  /\ (PyStr.any_in App.protein_keywords name_lower = false ->
      PyStr.any_in App.carb_keywords name_lower = true ->
      App.categorize_food_by_nutrients food = Ok "carbs")
  /\ (PyStr.any_in App.protein_keywords name_lower = false ->
      PyStr.any_in App.carb_keywords name_lower = false ->
      PyStr.any_in App.vegetable_keywords name_lower = true ->
      App.categorize_food_by_nutrients food = Ok "vegetables")
  /\ (PyStr.any_in App.protein_keywords name_lower = false ->
      PyStr.any_in App.carb_keywords name_lower = false ->
      PyStr.any_in App.vegetable_keywords name_lower = false ->
      PyStr.any_in App.fat_keywords name_lower = true ->
      App.categorize_food_by_nutrients food = Ok "fats").
Proof.
  cbv zeta. unfold App.categorize_food_by_nutrients.
  repeat split; intros; repeat match goal with Hk : _ = _ |- _ => rewrite Hk; clear Hk end;
    done.
Qed.

Lemma usda_categorize_keyword_order (food_name : string) :
  let name_lower := PyStr.lower food_name in
  (PyStr.any_in USDAService.protein_keywords name_lower = true ->
     USDAService.categorize_food food_name = "proteins")
  /\ (PyStr.any_in USDAService.protein_keywords name_lower = false ->
      PyStr.any_in USDAService.carb_keywords name_lower = true ->
      USDAService.categorize_food food_name = "carbs")
  /\ (PyStr.any_in USDAService.protein_keywords name_lower = false ->
      PyStr.any_in USDAService.carb_keywords name_lower = false ->
      PyStr.any_in USDAService.vegetable_keywords name_lower = true ->
      USDAService.categorize_food food_name = "vegetables")
  /\ (PyStr.any_in USDAService.protein_keywords name_lower = false ->
      PyStr.any_in USDAService.carb_keywords name_lower = false ->
      PyStr.any_in USDAService.vegetable_keywords name_lower = false ->
      PyStr.any_in USDAService.fat_keywords name_lower = true ->
      USDAService.categorize_food food_name = "fats").
Proof.
  cbv zeta. unfold USDAService.categorize_food.
  repeat split; intros; repeat match goal with Hk : _ = _ |- _ => rewrite Hk; clear Hk end;
    done.
Qed.

(** The four names that are in one list only, in both classifiers. *)
Lemma categorize_single_list_names (ns : gmap string num) (fdc dt : json num) :
  let food food_name :=
    {| name := food_name; nutrients := ns; fdcId := fdc; dataType := dt |} in
  App.categorize_food_by_nutrients (food "Grilled Chicken Breast") = Ok "proteins"
  /\ App.categorize_food_by_nutrients (food "Steamed Broccoli") = Ok "vegetables"
  /\ App.categorize_food_by_nutrients (food "Olive Oil") = Ok "fats"
  /\ App.categorize_food_by_nutrients (food "Brown Rice") = Ok "carbs"
  /\ USDAService.categorize_food "Grilled Chicken Breast" = "proteins"
  /\ USDAService.categorize_food "Steamed Broccoli" = "vegetables"
  /\ USDAService.categorize_food "Olive Oil" = "fats"
  /\ USDAService.categorize_food "Brown Rice" = "carbs".
Proof. repeat split; reflexivity. Qed.

(** C5, at the name the code gets wrong. ["pea"] is a protein keyword of
    [app.py] and a vegetable keyword of [usda_service.py], and it occurs in
    "peanut": both classifiers decide "Peanut Butter" before the fat list,
    with its keywords "peanut" and "butter", is looked at, whatever the
    nutrients; and no name is ever classified through the fat keyword
    "peanut". *)
Theorem peanut_butter_category (ns : gmap string num) (fdc dt : json num) :
  App.categorize_food_by_nutrients
    {| name := "Peanut Butter"; nutrients := ns; fdcId := fdc; dataType := dt |}
    = Ok "proteins"
  /\ USDAService.categorize_food "Peanut Butter" = "vegetables"
  /\ PyStr.any_in App.fat_keywords (PyStr.lower "Peanut Butter") = true
  /\ (forall s, PyStr.contains "peanut" s = true ->
        PyStr.any_in App.protein_keywords s = true
        /\ PyStr.any_in USDAService.vegetable_keywords s = true).
Proof.
  repeat split; try reflexivity.
  - eapply any_in_intro; [|apply (contains_app "pea" "nut"); eassumption]. reflexivity.
  - eapply any_in_intro; [|apply (contains_app "pea" "nut"); eassumption]. reflexivity.
Qed.

(** One keyword of one list, looked for in the other list. *)
Ltac keyword_step Hdiff :=
  let Hc := fresh "Hc" in
  intros Hc;
  first
    [ by (eapply any_in_intro; [|exact Hc]; reflexivity)
    | match type of Hc with
      | PyStr.contains ?kw _ = true =>
          by rewrite (any_in_false _ _ kw Hdiff eq_refl) in Hc
      end
    | by (eapply (any_in_intro _ _ "oat");
          [reflexivity | apply (contains_app "oat" "meal"); exact Hc])
    | by (apply (contains_app "brussels" " sprout") in Hc;
          rewrite (any_in_false _ _ "brussels" Hdiff eq_refl) in Hc) ].

Lemma keyword_lists_same (s : string) :
  PyStr.any_in App.differing_keywords s = false ->
  PyStr.any_in App.protein_keywords s = PyStr.any_in USDAService.protein_keywords s
  /\ PyStr.any_in App.carb_keywords s = PyStr.any_in USDAService.carb_keywords s
  /\ PyStr.any_in App.vegetable_keywords s = PyStr.any_in USDAService.vegetable_keywords s
  /\ PyStr.any_in App.fat_keywords s = PyStr.any_in USDAService.fat_keywords s.
Proof.
  intros Hdiff.
  repeat split; apply any_in_same; repeat apply Forall_cons_2;
    try apply Forall_nil_2; keyword_step Hdiff.
Qed.

(** C10, as the code has it. The two classifiers return the same
    category for a food record whose lower-cased name has none of the
    keywords on which their lists differ, provided that a keyword decides or
    that the ratio rules of [app.py], which [USDAService.categorize_food]
    does not have, end in proteins. *)
Theorem classifiers_agree (food : Food num) :
  PyStr.any_in App.differing_keywords (PyStr.lower (name food)) = false ->
  (~ App.no_keyword food \/ App.ratio_rule food = "proteins") ->
  App.categorize_food_by_nutrients food = Ok (USDAService.categorize_food (name food)).
Proof.
  intros Hdiff Hcase.
  destruct (keyword_lists_same _ Hdiff) as (Hp & Hc & Hv & Hf).
  unfold USDAService.categorize_food. rewrite <- Hp, <- Hc, <- Hv, <- Hf.
  destruct (PyStr.any_in App.protein_keywords (PyStr.lower (name food))) eqn:Ep;
    [by apply categorize_keyword_order|].
  destruct (PyStr.any_in App.carb_keywords (PyStr.lower (name food))) eqn:Ec;
    [by apply categorize_keyword_order|].
  destruct (PyStr.any_in App.vegetable_keywords (PyStr.lower (name food))) eqn:Ev;
    [by apply categorize_keyword_order|].
  destruct (PyStr.any_in App.fat_keywords (PyStr.lower (name food))) eqn:Ef;
    [by apply categorize_keyword_order|].
  assert (Hnone : App.no_keyword food) by done.
  rewrite (categorize_no_keyword food Hnone).
  destruct Hcase as [Hkw|Hrule]; [by destruct Hkw|by rewrite Hrule].
Qed.

End CategorizeProperties.

(** * The properties at concrete inputs *)

Section Instances.
Import USDAService Examples.

(** C7 at a query of one letter between blanks. *)
Lemma search_foods_rejected_query_witness :
  _clean_query (Some " a ") = None
  /\ search_foods (always (respond 200 (body chicken_items))) (Some " a ") 10 start
     = (Ok [], start)
  /\ calls (search_foods (always (respond 200 (body chicken_items))) (Some " a ") 10 start).2
     = calls start.
Proof.
  split; [reflexivity|].
  apply (search_foods_rejected_query
           (always (respond 200 (body chicken_items))) (Some " a ") 10 start).
  reflexivity.
Defined.

(** C1 at a query with a doubled blank, on a backend that answers every
    request with the three chicken and egg entries. *)
Lemma search_foods_cascade_witness :
  _clean_query (Some "chicken  breast") = Some "chicken breast"
  /\ exists foods w',
       search_foods (always (respond 200 (body chicken_items)))
                    (Some "chicken  breast") 10 start = (Ok foods, w')
       /\ cascade_run (always (respond 200 (body chicken_items))) 10
                      (cascade "chicken breast") start foods w'
       /\ (forall foods2 w2,
             cascade_run (always (respond 200 (body chicken_items))) 10
                         (cascade "chicken breast") start foods2 w2 ->
             foods2 = foods /\ w2 = w').
Proof.
  split; [reflexivity|].
  apply (search_foods_cascade (always (respond 200 (body chicken_items)))
           (Some "chicken  breast") 10 start "chicken breast").
  reflexivity.
Defined.

(** On that backend the first strategy succeeds: one request, the one of
    the first row, and two records. *)
Example search_first_strategy_only :
  exists foods w',
    search_foods (always (respond 200 (body chicken_items)))
                 (Some "chicken  breast") 10 start = (Ok foods, w')
    /\ map name foods = [ "Chicken Breast, raw"; "Eggs" ]
    /\ calls w' = [ first_request "chicken breast" 10 (Some ["SR Legacy"]) true ].
Proof. eexists _, _. split; [vm_compute; reflexivity|]. by vm_compute. Qed.

(** On a backend that answers 400 to everything, the five strategies are
    tried in the order of the table, the first two with their retry. *)
Example search_all_strategies_in_order :
  search_foods (always (respond 400 (body []))) (Some "Chicken Breast, raw") 3 start
  = (Ok [],
     {| backend := tt;
        calls :=
          [ first_request "Chicken Breast, raw" 3 (Some ["SR Legacy"]) true;
            relaxed (first_request "Chicken Breast, raw" 3 (Some ["SR Legacy"]) true);
            first_request "Chicken Breast, raw" 3 (Some ["Foundation"]) true;
            relaxed (first_request "Chicken Breast, raw" 3 (Some ["Foundation"]) true);
            first_request "Chicken Breast, raw" 3
              (Some ["SR Legacy"; "Foundation"; "Survey (FNDDS)"]) false;
            first_request "Chicken Breast, raw" 3 None false;
            first_request "chicken breast" 3 None false ] |}).
Proof. by vm_compute. Qed.


(** No failure of the backend escapes: a network error, a server error, a
    body that is not JSON, a body of another shape. *)
Example search_survives_failures :
  (search_foods (always (Raise RequestException)) (Some "apple") 10 start).1 = Ok []
  /\ (search_foods (always (respond 500 JNull)) (Some "apple") 10 start).1 = Ok []
  /\ (search_foods (always (Ok {| status_code := 200; response_json := Raise ValueError |}))
        (Some "apple") 10 start).1 = Ok []
  /\ (search_foods (always (respond 200 (JArr [JNum 1%Q]))) (Some "apple") 10 start).1 = Ok []
  /\ (search_foods (always (respond 200 (body [JObj [("description", JNull)]])))
        (Some "apple") 10 start).1 = Ok [].
Proof. repeat split; by vm_compute. Qed.

(** C9, refuted as stated: 404 is a client-error status and the strategy
    asked for all words, yet no second request is issued. *)
Lemma no_retry_on_404_counterexample :
  (400 <= 404 < 500)%Z
  /\ _search_with_params (always (respond 404 (body []))) "apple" 10
       (Some ["SR Legacy"]) true start
     = (Ok [], {| backend := tt;
                  calls := [ first_request "apple" 10 (Some ["SR Legacy"]) true ] |}).
Proof. split; [lia | by vm_compute]. Qed.

(** C3 at the three entries of the deduplication example. *)
Lemma parse_food_data_postprocess_witness :
  py_get (body chicken_items) "foods" (JArr []) ≫= py_iter = Ok chicken_items
  /\ decode_all chicken_items = Ok (decoded chicken_items)
  /\ (1 <= 10)%Z
  /\ _parse_food_data (body chicken_items) 10 = Ok (postprocess (decoded chicken_items) 10)
  /\ map name (postprocess (decoded chicken_items) 10) = [ "Chicken Breast, raw"; "Eggs" ].
Proof.
  split; [reflexivity|]. split; [by vm_compute|]. split; [lia|]. split; [|by vm_compute].
  apply (proj1 (proj2 (parse_food_data_postprocess (body chicken_items) 10))
           chicken_items (decoded chicken_items)).
  - reflexivity.
  - by vm_compute.
  - lia.
Defined.

(** C3, refuted as stated: the record returned for "apple" has the
    lower-cased name of the earlier entry "Apple", which has a name and was
    dropped for its poor data; with duplicates dropped before the data-poor
    entries, the order of [postprocess_as_specified], nothing would be
    returned. *)
Lemma postprocess_order_counterexample :
  exists f g,
    _parse_food_data (body apple_items) 10 = Ok [f]
    /\ decode_item (food_entry "apple" [ energy 52 ]) = Ok (Some f)
    /\ decode_item (food_entry "Apple" []) = Ok (Some g)
    /\ PyStr.is_empty (name g) = false
    /\ name_key g = name_key f
    /\ postprocess_as_specified (decoded apple_items) 10 = [].
Proof.
  eexists _, _. split; [vm_compute; reflexivity|].
  split; [vm_compute; reflexivity|]. split; [vm_compute; reflexivity|].
  by vm_compute.
Qed.

(** C6, at the input the code gets wrong: asked for at most 0 records,
    the search returns one. *)
Theorem search_foods_cap_zero :
  exists foods w',
    search_foods (always (respond 200 (body chicken_items))) (Some "chicken breast") 0 start
      = (Ok foods, w')
    /\ map name foods = [ "Chicken Breast, raw" ]
    /\ ~ (Z.of_nat (length foods) <= 0)%Z.
Proof.
  eexists _, _. split; [vm_compute; reflexivity|]. split; [by vm_compute|].
  cbn. lia.
Qed.




(** The ratio rules in their order, on records without a keyword. *)
Example categorize_by_ratio :
  App.categorize_food_by_nutrients (record "Mystery Item" 100 10 2 1) = Ok "proteins"
  /\ App.categorize_food_by_nutrients (record "Mystery Item" 100 1 2 10) = Ok "fats"
  /\ App.categorize_food_by_nutrients (record "Mystery Item" 100 1 20 1) = Ok "carbs"
  /\ App.categorize_food_by_nutrients (record "Mystery Item" 20 1 1 1) = Ok "vegetables"
  /\ App.categorize_food_by_nutrients (record "Mystery Item" 100 5 5 5) = Ok "proteins"
  /\ App.categorize_food_by_nutrients (record "Mystery Item" 0 0 0 0) = Ok "proteins".
Proof. repeat split; by vm_compute. Qed.

(** C5 at the lower-cased name itself. *)
Lemma peanut_butter_category_witness :
  PyStr.contains "peanut" "peanut butter" = true
  /\ PyStr.any_in App.protein_keywords "peanut butter" = true
  /\ PyStr.any_in USDAService.vegetable_keywords "peanut butter" = true.
Proof.
  split; [reflexivity|].
  apply (proj2 (proj2 (proj2 (peanut_butter_category (∅ : gmap string Q) JNull JNull)))).
  reflexivity.
Defined.

(** C10 at a record the ratio rules classify as proteins. *)
Lemma classifiers_agree_witness :
  PyStr.any_in App.differing_keywords
    (PyStr.lower (name (record "Mystery Item" 100 10 2 1))) = false
  /\ (~ App.no_keyword (record "Mystery Item" 100 10 2 1)
      \/ App.ratio_rule (record "Mystery Item" 100 10 2 1) = "proteins")
  /\ App.categorize_food_by_nutrients (record "Mystery Item" 100 10 2 1)
     = Ok (USDAService.categorize_food (name (record "Mystery Item" 100 10 2 1))).
Proof.
  split; [reflexivity|]. split; [right; by vm_compute|].
  apply (classifiers_agree (record "Mystery Item" 100 10 2 1)).
  - reflexivity.
  - right. by vm_compute.
Defined.

(** C10, refuted as stated: green peas are proteins for [app.py] and
    vegetables for [USDAService]; and a fat without keyword is fats for
    [app.py] and proteins for [USDAService]. *)
Lemma classifiers_disagree_counterexample :
  App.categorize_food_by_nutrients (record "Peas, green, raw" 81 (54 # 10) (144 # 10) (4 # 10))
    = Ok "proteins"
  /\ USDAService.categorize_food "Peas, green, raw" = "vegetables"
  /\ App.categorize_food_by_nutrients (record "Mystery Item" 100 1 2 10) = Ok "fats"
  /\ USDAService.categorize_food "Mystery Item" = "proteins".
Proof. repeat split; by vm_compute. Qed.

End Instances.

(** * The requests of a search *)

Section RequestProperties.
Context {num : Type} `{PyNumber num} {B : Type}.
Variable requests_get : Request -> B -> result (Response num) * B.

Import USDAService.

#[local] Abbreviation search := (search_foods requests_get).

(** One strategy: its first request, and after it at most the relaxed one,
    which needs a strategy that asked for all words. *)
Lemma search_with_params_calls (query : string) (n : Z)
    (data_types : option (list string)) (require_all_words : bool)
    (w w' : World B) (r : result (list (Food num))) :
  _search_with_params requests_get query n data_types require_all_words w = (r, w') ->
  let p := first_request query n data_types require_all_words in
  calls w' = (calls w ++ [p])%list
  \/ (require_all_words = true /\ calls w' = (calls w ++ [p; relaxed p])%list).
Proof.
  cbv zeta. unfold _search_with_params, first_request, try_except, bind, http_get, lift, ret.
  destruct (truthy_list data_types); cbn [rq_query rq_pageSize rq_requireAllWords rq_dataType];
    (destruct (requests_get _ (backend w)) as [[response|e] b1] eqn:Hfirst; cbn;
     [ destruct (status_code response =? 200)%Z eqn:H200;
       [ destruct (response_json response) as [data|e]; cbn;
         [ destruct (_parse_food_data data n) as [foods|e]; cbn |];
         try destruct (is_RequestException e); intros [= <- <-]; by left
       | destruct (status_code response =? 400)%Z eqn:H400; cbn;
         [|intros [= <- <-]; by left];
         destruct require_all_words; cbn; [|intros [= <- <-]; by left];
         unfold relaxed; cbn;
         destruct (requests_get _ b1) as [[response2|e] b2] eqn:Hsecond; cbn;
         [ destruct (status_code response2 =? 200)%Z; cbn;
           [ destruct (response_json response2) as [data|e]; cbn;
             [ destruct (_parse_food_data data n) as [foods|e]; cbn |] |] |];
         try destruct (is_RequestException e); cbn; intros [= <- <-]; right;
         (split; [done|]); cbn; by rewrite <- app_assoc ]
     | destruct (is_RequestException e); intros [= <- <-]; by left ]).
Qed.

(** The first request of a row of the table. *)
#[local] Abbreviation row_request n s :=
  (first_request (st_query s) n (st_data_types s) (st_require_all_words s)).

(** The requests of a run of a cascade: appended to the log; per strategy
    one, or two if it asks for all words; each of them the first request of
    a row or its relaxation. *)
Lemma cascade_run_calls (n : Z) (ss : list Strategy) (w w' : World B)
    (foods : list (Food num)) :
  cascade_run requests_get n ss w foods w' ->
  exists new,
    calls w' = (calls w ++ new)%list
    /\ (length new <= list_sum (map (fun s => if st_require_all_words s then 2 else 1) ss))%nat
    /\ Forall (fun r => exists s, s ∈ ss /\ (r = row_request n s \/ r = relaxed (row_request n s)))
              new.
Proof.
  induction 1 as [w|s rest w food foods w' Hhit|s rest w r w' foods w'' Hmiss Hnone Hrun IH].
  - exists []. rewrite app_nil_r. repeat split; [cbn; lia|constructor].
  - apply search_with_params_calls in Hhit as [Hone|[Hraw Htwo]].
    + eexists. split; [exact Hone|]. split.
      { cbn. destruct (st_require_all_words s); lia. }
      repeat constructor. exists s. split; [apply list_elem_of_here|by left].
    + eexists. split; [exact Htwo|]. split.
      { cbn. rewrite Hraw. lia. }
      repeat constructor; exists s; (split; [apply list_elem_of_here|]); [by left|by right].
  - destruct IH as (new & Hcalls & Hlen & Hall).
    assert (Hrest : Forall (fun r => exists s0, s0 ∈ s :: rest
              /\ (r = row_request n s0 \/ r = relaxed (row_request n s0))) new).
    { eapply Forall_impl; [exact Hall|]. intros rq (s0 & Hin & Hr).
      exists s0. split; [by apply list_elem_of_further|done]. }
    apply search_with_params_calls in Hmiss as [Hone|[Hraw Htwo]].
    + exists (row_request n s :: new). split; [by rewrite Hcalls, Hone, <- app_assoc|].
      split; [unfold list_sum in *; cbn in Hlen |- *; destruct (st_require_all_words s); lia|].
      constructor; [|done]. exists s. split; [apply list_elem_of_here|by left].
    + exists (row_request n s :: relaxed (row_request n s) :: new).
      split; [by rewrite Hcalls, Htwo, <- app_assoc|].
      split; [unfold list_sum in *; cbn in Hlen |- *; rewrite Hraw; lia|].
      repeat (constructor; [exists s; split; [apply list_elem_of_here|by auto]|]). done.
Qed.

(** When a run returns nothing, every row was tried: the first requests
    of the rows are in the log, in the order of the rows. *)
Lemma cascade_run_exhausted (n : Z) (ss : list Strategy) (w w' : World B) :
  cascade_run requests_get n ss w [] w' ->
  exists new,
    calls w' = (calls w ++ new)%list
    /\ map (fun s => row_request n s) ss `sublist_of` new.
Proof.
  remember [] as foods eqn:Hfoods. intros Hrun.
  induction Hrun as [w|s rest w food foods w' Hhit|s rest w r w' foods w'' Hmiss Hnone Hrun IH].
  - exists []. rewrite app_nil_r. split; [done|constructor].
  - done.
  - destruct (IH Hfoods) as (new & Hcalls & Hsub).
    apply search_with_params_calls in Hmiss as [Hone|[Hraw Htwo]].
    + exists (row_request n s :: new). split; [by rewrite Hcalls, Hone, <- app_assoc|].
      cbn [map]. by apply sublist_skip.
    + exists (row_request n s :: relaxed (row_request n s) :: new).
      split; [by rewrite Hcalls, Htwo, <- app_assoc|].
      cbn [map]. by apply sublist_skip, sublist_cons.
Qed.

(** A search never raises. *)
Lemma search_ok (q : option string) (n : Z) (w : World B) :
  exists foods w', search q n w = (Ok foods, w').
Proof.
  destruct (_clean_query q) as [cleaned|] eqn:Hclean.
  - destruct (search_runs_cascade requests_get q n w cleaned Hclean) as (foods & w' & Heq & _).
    by exists foods, w'.
  - exists [], w. by apply search_rejected.
Qed.

(** The requests of one search: at most seven, with the page size of the
    cap and the cleaned query or its simplified form. *)
Lemma search_calls (q : option string) (n : Z) (w : World B) :
  exists new,
    calls (search q n w).2 = (calls w ++ new)%list
    /\ (length new <= 7)%nat
    /\ Forall (fun r =>
         rq_pageSize r = Z.min (n * 2) 50
         /\ (rq_pageSize r <= 50)%Z
         /\ exists cleaned, _clean_query q = Some cleaned
              /\ (rq_query r = cleaned \/ rq_query r = _simplify_query cleaned)) new.
Proof.
  destruct (_clean_query q) as [cleaned|] eqn:Hclean.
  - destruct (search_runs_cascade requests_get q n w cleaned Hclean)
      as (foods & w' & Heq & Hrun & _).
    rewrite Heq. cbn [snd].
    destruct (cascade_run_calls _ _ _ _ _ Hrun) as (new & Hcalls & Hlen & Hall).
    exists new. split; [done|]. split; [exact Hlen|].
    eapply Forall_impl; [exact Hall|]. intros r (s & Hin & Hr).
    assert (Hquery : st_query s = cleaned \/ st_query s = _simplify_query cleaned).
    { unfold cascade in Hin. rewrite !elem_of_cons in Hin.
      destruct Hin as [->|[->|[->|[->|[->|Hin]]]]]; cbn; auto.
      by apply elem_of_nil in Hin. }
    destruct Hr as [->| ->]; cbn; (split; [done|]); (split; [lia|]);
      exists cleaned; by split.
  - rewrite (search_rejected requests_get q n w Hclean). cbn [snd].
    exists []. rewrite app_nil_r. repeat split; [cbn; lia|constructor].
Qed.

(** X1. One call of [search_foods] appends at most seven requests to the
    log, never changing what was logged before: two for each of the two
    strategies that ask for all words, one for each of the other three.
    Every one of them asks for [min(2 * max_results, 50)] entries, so for at
    most 50, and carries the cleaned query or its simplified form. *)
Theorem search_foods_requests (q : option string) (n : Z) (w : World B) :
  exists new,
    calls (search q n w).2 = (calls w ++ new)%list
    /\ (length new <= 7)%nat
    /\ Forall (fun r =>
         rq_pageSize r = Z.min (n * 2) 50
         /\ (rq_pageSize r <= 50)%Z
         /\ exists cleaned, _clean_query q = Some cleaned
              /\ (rq_query r = cleaned \/ rq_query r = _simplify_query cleaned)) new.
Proof. exact (search_calls q n w). Qed.

(** X2. When a search for a query that cleans to [cleaned] returns the
    empty list, the whole table was tried: the first requests of the five
    rows are in the log of the call, in the order of the rows (with the
    relaxed retries, if any, between them), so at least five requests were
    issued. *)
Theorem search_foods_empty_exhausts (q : option string) (n : Z) (w w' : World B)
    (cleaned : string) :
  _clean_query q = Some cleaned ->
  search q n w = (Ok [], w') ->
  exists new,
    calls w' = (calls w ++ new)%list
    /\ [ first_request cleaned n (Some ["SR Legacy"]) true;
         first_request cleaned n (Some ["Foundation"]) true;
         first_request cleaned n (Some ["SR Legacy"; "Foundation"; "Survey (FNDDS)"]) false;
         first_request cleaned n None false;
         first_request (_simplify_query cleaned) n None false ] `sublist_of` new
    /\ (5 <= length new)%nat.
Proof.
  intros Hclean Hsearch.
  destruct (search_runs_cascade requests_get q n w cleaned Hclean)
    as (foods & w'' & Heq & Hrun & _).
  rewrite Heq in Hsearch. injection Hsearch as -> ->.
  destruct (cascade_run_exhausted _ _ _ _ Hrun) as (new & Hcalls & Hsub).
  exists new. split; [done|]. split; [exact Hsub|].
  apply sublist_length in Hsub. exact Hsub.
Qed.

End RequestProperties.

(** * Properties of query normalisation *)

Section QueryProperties.

Import USDAService PyStrShape.

Lemma append_cons (c : ascii) (s t : string) : String c s +:+ t = String c (s +:+ t).
Proof. reflexivity. Qed.

Lemma append_nil_r (s : string) : s +:+ "" = s.
Proof. induction s as [|c s IH]; [done|]. by rewrite append_cons, IH. Qed.

Lemma append_assoc (a b c : string) : (a +:+ b) +:+ c = a +:+ (b +:+ c).
Proof. induction a as [|x a IH]; [done|]. by rewrite !append_cons, IH. Qed.

Lemma chars_append (a b : string) :
  list_ascii_of_string (a +:+ b) = (list_ascii_of_string a ++ list_ascii_of_string b)%list.
Proof. induction a as [|x a IH]; [done|]. rewrite append_cons. cbn. by rewrite IH. Qed.

Lemma length_append (a b : string) :
  String.length (a +:+ b) = (String.length a + String.length b)%nat.
Proof. induction a as [|x a IH]; [done|]. rewrite append_cons. cbn. by rewrite IH. Qed.

Lemma is_empty_append (a b : string) :
  PyStr.is_empty b = false -> PyStr.is_empty (a +:+ b) = false.
Proof. by destruct a. Qed.

(** [split] returns words. *)
Lemma split_from_words (s word : string) :
  word = "" \/ is_word word -> Forall is_word (PyStr.split_from s word).
Proof.
  revert word. induction s as [|c s IH]; intros word Hword; cbn [PyStr.split_from].
  - destruct Hword as [->|Hw]; [constructor|].
    destruct Hw as [Hne Hns]. rewrite Hne. by repeat constructor.
  - destruct (PyStr.is_space c) eqn:Hc.
    + destruct Hword as [->|Hw]; [apply IH; by left|].
      destruct Hw as [Hne Hns]. rewrite Hne. constructor; [done|]. apply IH. by left.
    + apply IH. right. split.
      * by apply is_empty_append.
      * unfold no_space. rewrite chars_append. apply Forall_app. split.
        { destruct Hword as [->|[_ Hns]]; [constructor|done]. }
        by repeat constructor.
Qed.

Lemma rstrip_no_space (s : string) : no_space s -> PyStr.rstrip s = s.
Proof.
  induction s as [|c s IH]; [done|]. intros [Hc Hs]%Forall_cons.
  cbn [PyStr.rstrip]. rewrite (IH Hs), Hc. done.
Qed.

Lemma rstrip_append_word (a w : string) : is_word w -> PyStr.rstrip (a +:+ w) = a +:+ w.
Proof.
  intros [Hne Hns]. induction a as [|c a IH]; [by apply rstrip_no_space|].
  rewrite append_cons. cbn [PyStr.rstrip]. rewrite IH, (is_empty_append a w Hne).
  by rewrite andb_false_r.
Qed.

Lemma lstrip_word_append (w rest : string) : is_word w -> PyStr.lstrip (w +:+ rest) = w +:+ rest.
Proof.
  intros [Hne Hns]. destruct w as [|c w]; [done|].
  apply Forall_cons in Hns as [Hc _]. rewrite append_cons. cbn. by rewrite Hc.
Qed.

(** A non-empty list of words joined by blanks begins and ends with a
    word. *)
Lemma join_words_ends (w : string) (ws : list string) :
  Forall is_word (w :: ws) ->
  exists a last, PyStr.join " " (w :: ws) = a +:+ last /\ is_word last.
Proof.
  revert w. induction ws as [|w2 ws IH]; intros w [Hw Hws]%Forall_cons.
  - exists "", w. by split.
  - destruct (IH w2 Hws) as (a & last & Hjoin & Hlast).
    exists (w +:+ " " +:+ a), last. split; [|done].
    cbn [PyStr.join] in Hjoin |- *. by rewrite Hjoin, !append_assoc.
Qed.

Lemma strip_join_words (ws : list string) :
  Forall is_word ws -> PyStr.strip (PyStr.join " " ws) = PyStr.join " " ws.
Proof.
  intros Hws. destruct ws as [|w ws]; [done|]. unfold PyStr.strip.
  assert (Hl : PyStr.lstrip (PyStr.join " " (w :: ws)) = PyStr.join " " (w :: ws)).
  { apply Forall_cons in Hws as [Hw _].
    destruct ws as [|w2 ws]; cbn [PyStr.join].
    - rewrite <- (append_nil_r w). by apply lstrip_word_append.
    - by apply lstrip_word_append. }
  rewrite Hl. destruct (join_words_ends w ws Hws) as (a & last & -> & Hlast).
  by apply rstrip_append_word.
Qed.

Lemma split_from_no_space (w rest word : string) :
  no_space w -> PyStr.split_from (w +:+ rest) word = PyStr.split_from rest (word +:+ w).
Proof.
  revert word. induction w as [|c w IH]; intros word Hns.
  - by rewrite append_nil_r.
  - apply Forall_cons in Hns as [Hc Hw]. rewrite append_cons. cbn [PyStr.split_from].
    rewrite Hc, (IH _ Hw), append_assoc. done.
Qed.

(** Splitting what was joined gives the words back. *)
Lemma split_join_words (ws : list string) :
  Forall is_word ws -> PyStr.split (PyStr.join " " ws) = ws.
Proof.
  unfold PyStr.split. induction ws as [|w ws IH]; [done|].
  intros [Hw Hws]%Forall_cons. destruct Hw as [Hne Hns].
  destruct ws as [|w2 ws]; cbn [PyStr.join].
  - pose proof (split_from_no_space w "" "" Hns) as Hsplit.
    rewrite append_nil_r in Hsplit. rewrite Hsplit. change ("" +:+ w) with w.
    cbn [PyStr.split_from]. by rewrite Hne.
  - rewrite (split_from_no_space w _ "" Hns). rewrite append_cons.
    cbn [PyStr.split_from]. change (PyStr.is_space " ") with true. cbn iota.
    change ("" +:+ w) with w. rewrite Hne.
    f_equal. by apply IH.
Qed.

(** The shape of a cleaned query: the words of the query joined by single
    blanks. *)
Lemma clean_query_words (q : option string) (cleaned : string) :
  _clean_query q = Some cleaned ->
  exists ws, Forall is_word ws /\ cleaned = PyStr.join " " ws
             /\ (2 <= String.length cleaned)%nat.
Proof.
  destruct q as [s|]; [|done]. cbn [_clean_query].
  destruct (PyStr.is_empty s); [done|].
  destruct (_ <? 2)%nat eqn:Hlen; [done|]. intros [= <-].
  exists (PyStr.split (PyStr.strip s)). split; [|split; [done|]].
  - apply split_from_words. by left.
  - apply Nat.ltb_ge in Hlen. exact Hlen.
Qed.

Lemma clean_query_fixed (q : option string) (cleaned : string) :
  _clean_query q = Some cleaned -> _clean_query (Some cleaned) = Some cleaned.
Proof.
  intros (ws & Hws & -> & Hlen)%clean_query_words. cbn [_clean_query].
  rewrite (strip_join_words ws Hws), (split_join_words ws Hws).
  destruct (PyStr.join " " ws) eqn:Hjoin; [cbn in Hlen; lia|]. cbn [PyStr.is_empty].
  apply Nat.ltb_ge in Hlen. by rewrite Hlen.
Qed.

(** X3. A cleaned query is at least two characters long, is made of the
    words of the query (non-empty runs without whitespace) separated by
    single blanks, has no whitespace at its ends, and is left as it is by
    cleaning it again. *)
Theorem clean_query_idempotent (q : option string) (cleaned : string) :
  _clean_query q = Some cleaned ->
  _clean_query (Some cleaned) = Some cleaned
  /\ PyStr.strip cleaned = cleaned
  /\ (2 <= String.length cleaned)%nat
  /\ exists ws, Forall is_word ws /\ cleaned = PyStr.join " " ws.
Proof.
  intros Hclean. split; [by eapply clean_query_fixed|].
  destruct (clean_query_words q cleaned Hclean) as (ws & Hws & -> & Hlen).
  split; [by apply strip_join_words|]. split; [done|]. by exists ws.
Qed.

End QueryProperties.

(** * Properties of query simplification *)

Section SimplifyProperties.

Import USDAService PyStrShape.


















(** A word that does not occur is not replaced. *)
Lemma replace_absent (old new s : string) :
  PyStr.contains old s = false -> PyStr.replace old new s = s.
Proof.
  unfold PyStr.replace. induction s as [|c s IH]; [done|].
  cbn [PyStr.contains PyStr.replace_from].
  destruct (PyStr.starts_with old (String c s)); [done|].
  intros Hrest. by rewrite (IH Hrest).
Qed.


(** X5. A query in whose lower-cased form none of the twenty descriptors
    occurs is only lower-cased and stripped: the last strategy then searches
    for the same words as the fourth. *)
Theorem simplify_query_no_descriptor (query : string) :
  PyStr.any_in descriptors (PyStr.lower query) = false ->
  _simplify_query query = PyStr.strip (PyStr.lower query).
Proof.
  unfold _simplify_query, PyStr.any_in. intros Hnone. f_equal.
  generalize dependent (PyStr.lower query). intros s.
  induction descriptors as [|d ds IH]; [done|].
  cbn [existsb foldl]. intros [Hd Hds]%orb_false_elim.
  rewrite (replace_absent d "" s Hd). by apply IH.
Qed.

End SimplifyProperties.

(** * More on nutrient extraction and on the cap *)

Section ExtractionProperties.
Context {num : Type} `{PyNumber num}.

Import USDAService NutrientSpec.

(** Take [Hrun : ... = Ok _] apart along the binds and tests of the code. *)
Ltac run_cases Hrun :=
  repeat
    first
    [ progress cbn [mbind result_bind mret result_ret] in Hrun
    | match type of Hrun with
      | Raise _ = Ok _ => discriminate Hrun
      | mbind _ ?m = Ok _ =>
          let a := fresh "a" in let E := fresh "E" in
          destruct m as [a|?] eqn:E
      | result_bind _ _ _ ?m = Ok _ =>
          let a := fresh "a" in let E := fresh "E" in
          destruct m as [a|?] eqn:E
      | (if ?c then _ else _) = Ok _ =>
          let E := fresh "E" in destruct c eqn:E
      | match ?o with Some _ => _ | None => _ end = Ok _ =>
          let E := fresh "E" in destruct o eqn:E
      end ].

(** Rewrite the goal with the equations at hand, reducing the binds. *)
Ltac run_with_equations :=
  repeat
    first
    [ progress cbn [mbind result_bind mret result_ret]
    | match goal with
      | Hx : ?x = Ok _ |- context [?x] => rewrite Hx
      | Hx : ?x = true |- context [?x] => rewrite Hx
      | Hx : ?x = false |- context [?x] => rewrite Hx
      | Hx : ?x = Some _ |- context [?x] => rewrite Hx
      | Hx : ?x = None |- context [?x] => rewrite Hx
      end ].

Lemma has_key_Some (key : string) (m : gmap string num) (v : num) :
  m !! key = Some v -> has_key key m = true.
Proof. intros Hk. unfold has_key. apply bool_decide_eq_true. by rewrite Hk. Qed.

(** A key that is set is changed only by an entry whose [nutrientId] maps
    to it: an entry matched by its name never overwrites. *)
Lemma extract_loop_keeps (items : list (json num)) (m out : gmap string num)
    (key : string) (v : num) :
  extract_loop items m = Ok out ->
  m !! key = Some v ->
  Forall (fun item => ~ maps_to key item) items ->
  out !! key = Some v.
Proof.
  revert m. induction items as [|item rest IH]; intros m Hloop Hkey Hnone.
  - cbn in Hloop. by simplify_eq.
  - apply Forall_cons in Hnone as [Hitem Hrest].
    pose proof (has_key_Some key m v Hkey) as Hhas.
    cbn [extract_loop] in Hloop. run_cases Hloop;
      try (by eapply IH);
      (eapply IH; [exact Hloop| |exact Hrest]);
      rewrite lookup_insert; case_decide as Heq; try done; subst;
      try (exfalso; apply Hitem; eexists; by split);
      rewrite Hhas in *; by rewrite ?andb_false_r in *.
Qed.

(** X6. In [_extract_nutrients], the value recorded under a key is that
    of the last entry whose [nutrientId] maps to the key and whose value is
    neither [None] nor zero, rounded: entries before it, and entries after
    it that are matched by their name only, do not change it. *)
Theorem extract_nutrients_last_id_wins (before after : list (json num)) (item : json num)
    (nutrient_id value : json num) (key : string) (out : gmap string num) :
  _extract_nutrients (JArr (before ++ item :: after)) = Ok out ->
  py_get item "nutrientId" JNull = Ok nutrient_id ->
  mapping_find nutrient_id = Ok (Some key) ->
  py_get item "value" (JNum (num_lit 0)) = Ok value ->
  is_none_or_zero value = false ->
  Forall (fun later => ~ maps_to key later) after ->
  exists v,
    py_round value (if String.eqb key "calories" then 0 else 1) = Ok v
    /\ out !! key = Some v.
Proof.
  unfold _extract_nutrients. cbn [py_iter mbind result_bind].
  intros Hrun Hid Hfind Hvalue Hnz Hafter.
  destruct (extract_loop (before ++ item :: after) ∅) as [m|] eqn:Hloop; [|done].
  cbn [mbind result_bind] in Hrun. injection Hrun as <-.
  assert (Hm : exists v, py_round value (if String.eqb key "calories" then 0 else 1) = Ok v
                         /\ m !! key = Some v).
  { clear -Hloop Hid Hfind Hvalue Hnz Hafter. revert Hloop. generalize (∅ : gmap string num).
    induction before as [|b before IH]; intros m0 Hloop.
    - cbn [app extract_loop] in Hloop. rewrite Hid in Hloop.
      cbn [mbind result_bind] in Hloop.
      destruct (py_get item "nutrientName" (JStr "") ≫= py_lower) as [nm|] eqn:Hname;
        [|done].
      cbn [mbind result_bind] in Hloop. rewrite Hvalue in Hloop.
      cbn [mbind result_bind] in Hloop. rewrite Hnz, Hfind in Hloop.
      cbn [mbind result_bind] in Hloop.
      destruct (py_round value _) as [v|] eqn:Hround; [|done].
      cbn [mbind result_bind] in Hloop.
      exists v. split; [done|].
      eapply extract_loop_keeps; [exact Hloop| |exact Hafter].
      by rewrite lookup_insert_eq.
    - cbn [app extract_loop] in Hloop. run_cases Hloop; by eapply IH. }
  destruct Hm as (v & Hround & Hv). exists v. split; [done|].
  by rewrite fill_defaults_lookup, Hv.
Qed.

(** Once the cap has stopped the loop, what follows in the response is not
    looked at. *)
Lemma parse_loop_capped (items extra : list (json num)) (n : Z)
    (foods : list (Food num)) (seen : gset string) (out : list (Food num)) :
  parse_loop items n foods seen = Ok out ->
  (length foods < length out)%nat ->
  (n <= Z.of_nat (length out))%Z ->
  parse_loop (items ++ extra) n foods seen = Ok out.
Proof.
  revert foods seen. induction items as [|item rest IH]; intros foods seen Hloop Hnew Hcap.
  - cbn in Hloop. injection Hloop as <-. lia.
  - cbn [parse_loop] in Hloop. cbn [app parse_loop].
    run_cases Hloop; run_with_equations; try done; try (by apply IH).
    apply IH; [done| |done].
    rewrite Z.geb_leb in E6. apply Z.leb_gt in E6. lia.
Qed.

(** X7. When [_parse_food_data] has returned a non-empty list that
    reaches the cap, the entries that follow in the response are never
    looked at: appending any entries to the response, well formed or not,
    gives the same result. *)
Theorem parse_food_data_capped (data data' : json num) (items extra : list (json num))
    (n : Z) (out : list (Food num)) :
  py_get data "foods" (JArr []) = Ok (JArr items) ->
  py_get data' "foods" (JArr []) = Ok (JArr (items ++ extra)) ->
  _parse_food_data data n = Ok out ->
  out <> [] ->
  (n <= Z.of_nat (length out))%Z ->
  _parse_food_data data' n = Ok out.
Proof.
  unfold _parse_food_data. intros -> -> Hrun Hne Hcap. cbn in Hrun |- *.
  apply parse_loop_capped; [done| |done].
  destruct out; [done|cbn; lia].
Qed.

(** The loop over a list in two parts is the loop over the first part
    followed by the loop over the second. *)
Lemma extract_loop_app (l1 l2 : list (json num)) (m : gmap string num) :
  extract_loop (l1 ++ l2) m = extract_loop l1 m ≫= extract_loop l2.
Proof.
  revert m. induction l1 as [|item rest IH]; intros m; [done|].
  cbn [app extract_loop].
  repeat first
    [ done
    | apply IH
    | progress cbn [mbind result_bind]
    | match goal with
      | |- context [py_get ?d ?k ?v] => destruct (py_get d k v)
      | |- context [py_lower ?v] => destruct (py_lower v)
      | |- context [mapping_find ?v] => destruct (mapping_find v)
      | |- context [py_round ?v ?n] => destruct (py_round v n)
      | |- context [if ?c then _ else _] => destruct c
      | |- context [match ?o with Some _ => _ | None => _ end] => destruct o
      end ].
Qed.

(** X15. [_extract_nutrients] passes over an entry with a textual (or
    missing) nutrient name whose value is [None] or zero, and over one whose
    [nutrientId] is not in the mapping and whose name has none of the five
    phrases: taking the entry out of the list gives the same mapping. *)
Theorem extract_nutrients_passes_over (before after : list (json num)) (item : json num)
    (nutrient_id value : json num) (nutrient_name : string) :
  py_get item "nutrientId" JNull = Ok nutrient_id ->
  py_get item "nutrientName" (JStr "") ≫= py_lower = Ok nutrient_name ->
  py_get item "value" (JNum (num_lit 0)) = Ok value ->
  is_none_or_zero value = true
  \/ (mapping_find nutrient_id = Ok None
      /\ PyStr.any_in ["protein"; "carbohydrate"; "total lipid"; "fat, total"; "energy"]
                      nutrient_name = false) ->
  _extract_nutrients (JArr (before ++ item :: after))
  = _extract_nutrients (JArr (before ++ after)).
Proof.
  intros Hid Hname Hvalue Hskip. unfold _extract_nutrients. cbn [py_iter mbind result_bind].
  rewrite !extract_loop_app.
  destruct (extract_loop before ∅) as [m|]; [|done]. cbn [mbind result_bind].
  cbn [extract_loop]. rewrite Hid. cbn [mbind result_bind]. rewrite Hname.
  cbn [mbind result_bind]. rewrite Hvalue. cbn [mbind result_bind].
  destruct Hskip as [->|[-> Hnone]]; [done|].
  destruct (is_none_or_zero value); [done|]. cbn [mbind result_bind].
  unfold PyStr.any_in in Hnone. cbn [existsb] in Hnone.
  repeat (apply orb_false_elim in Hnone as [? Hnone]).
  run_with_equations. by cbn.
Qed.

End ExtractionProperties.

(** ** The callers of the search: [validate_api_connection] and
    [gather_available_foods] *)

Section CallerProperties.
Context {num : Type} `{PyNumber num} {B : Type}.
Variable requests_get : Request -> B -> result (Response num) * B.

Import USDAService Callers CallerSpec.

#[local] Abbreviation search := (search_foods requests_get).
#[local] Abbreviation gather := (gather_available_foods requests_get).

(** The classifier of [app.py] never raises and names a category. *)
Lemma categorize_ok (food : Food num) :
  exists category,
    App.categorize_food_by_nutrients food = Ok category /\ category ∈ App.categories.
Proof.
  destruct (PyStr.any_in App.protein_keywords (PyStr.lower (name food))) eqn:Hp;
    [|destruct (PyStr.any_in App.carb_keywords (PyStr.lower (name food))) eqn:Hc;
      [|destruct (PyStr.any_in App.vegetable_keywords (PyStr.lower (name food))) eqn:Hv;
        [|destruct (PyStr.any_in App.fat_keywords (PyStr.lower (name food))) eqn:Hf]]].
  5: { exists (App.ratio_rule food). split; [by apply categorize_no_keyword|].
       unfold App.ratio_rule, App.categories.
       repeat match goal with |- context [if ?c then _ else _] => destruct c end;
         rewrite !elem_of_cons; auto. }
  all: eexists; (split; [unfold App.categorize_food_by_nutrients;
                         rewrite ?Hp, ?Hc, ?Hv, ?Hf; reflexivity|]);
       unfold App.categories; rewrite !elem_of_cons; by auto.
Qed.

Lemma category_names_elem (c : string) :
  c ∈ category_names <-> c = "proteins" \/ c = "carbs" \/ c = "vegetables" \/ c = "fats".
Proof.
  unfold category_names. rewrite !elem_of_union, !elem_of_singleton. tauto.
Qed.

Lemma category_named (c : string) :
  c ∈ App.categories -> PyStr.is_empty c = false /\ c ∈ category_names.
Proof.
  unfold App.categories. rewrite category_names_elem, !elem_of_cons, elem_of_nil.
  intros [->|[->|[->|[->|[]]]]]; (split; [reflexivity|tauto]).
Qed.

Lemma universal_named (c : string) (terms : list string) :
  (c, terms) ∈ universal_foods -> c ∈ category_names.
Proof.
  unfold universal_foods. rewrite category_names_elem, !elem_of_cons, elem_of_nil.
  intros [Heq|[Heq|[Heq|[Heq|[]]]]]; injection Heq as -> _; tauto.
Qed.

Lemma foods_of_named (m : gmap string (list (Food num))) (c : string) :
  dom m = category_names -> c ∈ category_names -> exists foods, m !! c = Some foods.
Proof. intros Hdom Hc. rewrite <- Hdom in Hc. by apply elem_of_dom in Hc. Qed.

Lemma dom_insert_named (m : gmap string (list (Food num))) (c : string)
    (foods : list (Food num)) :
  c ∈ dom m -> dom (<[c := foods]> m) = dom m.
Proof.
  intros Hc. rewrite dom_insert_L. apply set_eq. intros x.
  rewrite elem_of_union, elem_of_singleton. split; [intros [->|?]; done|by right].
Qed.

Lemma empty_foods_inv (preferred_foods : list string) :
  preferred_inv requests_get preferred_foods empty_foods.
Proof.
  split.
  - apply set_eq. intros c. unfold empty_foods.
    rewrite category_names_elem, !dom_insert, dom_empty, !elem_of_union,
      !elem_of_singleton, elem_of_empty. tauto.
  - intros c foods. unfold empty_foods.
    rewrite !lookup_insert_Some, lookup_empty.
    intros [[_ <-]|[_ [[_ <-]|[_ [[_ <-]|[_ [[_ <-]|[_ ?]]]]]]]]; try done;
      (split; [cbn; lia|constructor]).
Qed.

(** *** The first loop *)

Lemma file_foods_inv (preferred_foods : list string) (found : list (Food num))
    (m : gmap string (list (Food num))) :
  Forall (found_for requests_get preferred_foods 3) found ->
  preferred_inv requests_get preferred_foods m ->
  exists m', file_foods found m = Ok m' /\ preferred_inv requests_get preferred_foods m'.
Proof.
  revert m. induction found as [|food rest IH]; intros m Hfound Hinv.
  - by exists m.
  - apply Forall_cons in Hfound as [Hfood Hrest].
    destruct (categorize_ok food) as (c & Hcat & Hc).
    destruct (category_named c Hc) as [Hne Hname].
    destruct Hinv as [Hdom Hlists].
    destruct (foods_of_named m c Hdom Hname) as (foods & Hfoods).
    cbn [file_foods]. rewrite Hcat. cbn [mbind result_bind]. rewrite Hne.
    unfold foods_of. rewrite Hfoods. cbn [mbind result_bind].
    destruct (length foods <? 6)%nat eqn:Hlen; [|apply IH; by try split].
    apply IH; [done|]. apply Nat.ltb_lt in Hlen. split.
    + rewrite dom_insert_named; [done|]. by rewrite Hdom.
    + intros c' foods' Hlook. destruct (decide (c = c')) as [<-|Hneq].
      * rewrite lookup_insert_eq in Hlook. injection Hlook as <-.
        destruct (Hlists c foods Hfoods) as [_ Hall]. split.
        -- rewrite length_app. cbn. lia.
        -- apply Forall_app. split; [done|]. constructor; [by split|constructor].
      * rewrite lookup_insert_ne in Hlook by done. by apply Hlists.
Qed.

Lemma search_preferred_inv (preferred_foods l : list string)
    (m : gmap string (list (Food num))) (w : World B) :
  l ⊆ preferred_foods ->
  preferred_inv requests_get preferred_foods m ->
  exists m' w',
    search_preferred requests_get l m w = (Ok m', w')
    /\ preferred_inv requests_get preferred_foods m'.
Proof.
  revert m w. induction l as [|term rest IH]; intros m w Hsub Hinv.
  - by exists m, w.
  - assert (Hterm : term ∈ preferred_foods) by (apply Hsub; apply list_elem_of_here).
    assert (Hrest : rest ⊆ preferred_foods).
    { intros x Hx. apply Hsub. by apply list_elem_of_further. }
    destruct (search_ok requests_get (Some term) 3 w) as (found & w1 & Hsearch).
    cbn [search_preferred]. unfold bind at 1. rewrite Hsearch.
    destruct found as [|food found']; [by apply IH|].
    destruct (file_foods_inv preferred_foods (food :: found') m) as (m1 & Hfile & Hinv1);
      [|done|].
    { apply Forall_forall. intros f Hf. by exists term, w, (food :: found'), w1. }
    unfold bind, lift. rewrite Hfile. by apply IH.
Qed.

(** *** The second loop *)

Lemma universal_inv_refl (m : gmap string (list (Food num))) : universal_inv requests_get m m.
Proof.
  intros c pref Hpref. exists []. rewrite app_nil_r. by repeat split.
Qed.

Lemma add_universal_inv (c : string) (terms l : list string)
    (m0 m : gmap string (list (Food num))) (w : World B) (pref : list (Food num)) :
  (c, terms) ∈ universal_foods ->
  l ⊆ terms ->
  dom m = dom m0 ->
  universal_inv requests_get m0 m ->
  m0 !! c = Some pref ->
  (length pref < 3)%nat ->
  exists m' w',
    add_universal requests_get c l m w = (Ok m', w')
    /\ dom m' = dom m0
    /\ universal_inv requests_get m0 m'.
Proof.
  intros Hc. revert m w. induction l as [|term rest IH]; intros m w Hsub Hdom Hinv Hpref Hshort.
  - by exists m, w.
  - assert (Hterm : term ∈ terms) by (apply Hsub; apply list_elem_of_here).
    assert (Hrest : rest ⊆ terms).
    { intros x Hx. apply Hsub. by apply list_elem_of_further. }
    destruct (Hinv c pref Hpref) as (univ & Hfoods & Hall & Hlen).
    cbn [add_universal]. unfold bind at 1, lift, foods_of. rewrite Hfoods.
    destruct (5 <=? length (pref ++ univ))%nat eqn:Hfull; [by exists m, w|].
    apply Nat.leb_gt in Hfull.
    destruct (existsb _ _); [by apply IH|].
    destruct (search_ok requests_get (Some term) 1 w) as (found & w1 & Hsearch).
    pose proof (search_foods_length requests_get _ _ _ _ _ Hsearch) as Hone.
    unfold bind. rewrite Hsearch.
    destruct found as [|food [|? ?]]; [by apply IH| |cbn in Hone; lia].
    apply IH; [done| | |done|done].
    + rewrite dom_insert_named; [done|]. by apply elem_of_dom.
    + intros c' pref' Hpref'. destruct (decide (c = c')) as [<-|Hneq].
      * rewrite Hpref in Hpref'. injection Hpref' as <-.
        exists (univ ++ [food])%list. rewrite lookup_insert_eq, <- app_assoc.
        split; [done|]. split.
        -- apply Forall_app. split; [done|]. constructor; [|constructor].
           exists terms. split; [done|]. exists term, w, [food], w1.
           split; [done|]. split; [done|]. apply list_elem_of_here.
        -- intros _. split; [done|].
           rewrite app_assoc, length_app. cbn. lia.
      * rewrite lookup_insert_ne by done. by apply Hinv.
Qed.

Lemma fill_universal_inv (l : list (string * list string))
    (m0 m : gmap string (list (Food num))) (w : World B) :
  l ⊆ universal_foods ->
  dom m0 = category_names ->
  dom m = dom m0 ->
  universal_inv requests_get m0 m ->
  exists m' w',
    fill_universal requests_get l m w = (Ok m', w')
    /\ dom m' = dom m0
    /\ universal_inv requests_get m0 m'.
Proof.
  intros Hsub Hnames. revert m w Hsub.
  induction l as [|[c terms] rest IH]; intros m w Hsub Hdom Hinv.
  - by exists m, w.
  - assert (Hc : (c, terms) ∈ universal_foods) by (apply Hsub; apply list_elem_of_here).
    assert (Hrest : rest ⊆ universal_foods).
    { intros x Hx. apply Hsub. by apply list_elem_of_further. }
    destruct (foods_of_named m0 c Hnames (universal_named c terms Hc)) as (pref & Hpref).
    destruct (Hinv c pref Hpref) as (univ & Hfoods & Hall & Hlen).
    cbn [fill_universal]. unfold bind at 1, lift, foods_of. rewrite Hfoods.
    destruct (length (pref ++ univ) <? 3)%nat eqn:Hfew; [|by apply IH].
    apply Nat.ltb_lt in Hfew. rewrite length_app in Hfew.
    destruct (add_universal_inv c terms terms m0 m w pref) as (m1 & w1 & Hadd & Hdom1 & Hinv1);
      [done|done|done|done|done|lia|].
    unfold bind. rewrite Hadd. by apply IH.
Qed.

(** The two loops together. *)
Lemma gather_inv (preferred_foods : list string) (w : World B) :
  exists m0 w0 m w',
    search_preferred requests_get preferred_foods empty_foods w = (Ok m0, w0)
    /\ gather preferred_foods w = (Ok m, w')
    /\ preferred_inv requests_get preferred_foods m0
    /\ dom m = category_names
    /\ universal_inv requests_get m0 m.
Proof.
  destruct (search_preferred_inv preferred_foods preferred_foods empty_foods w)
    as (m0 & w0 & Hfirst & Hinv0); [done|apply empty_foods_inv|].
  destruct (fill_universal_inv universal_foods m0 m0 w0)
    as (m & w' & Hsecond & Hdom & Hinv); [done|apply Hinv0|done|apply universal_inv_refl|].
  exists m0, w0, m, w'. split; [done|]. split.
  - unfold gather_available_foods, bind. by rewrite Hfirst.
  - split; [done|]. split; [|done]. rewrite Hdom. apply Hinv0.
Qed.

(** Where each food of the result comes from. *)
Lemma gather_origin (preferred_foods : list string) (w w' : World B)
    (m : gmap string (list (Food num))) (c : string) (foods : list (Food num)) :
  gather preferred_foods w = (Ok m, w') ->
  m !! c = Some foods ->
  exists pref univ,
    foods = (pref ++ univ)%list
    /\ Forall (from_preferred requests_get preferred_foods c) pref
    /\ (length pref <= 6)%nat
    /\ Forall (from_universal requests_get c) univ
    /\ (univ <> [] -> (length pref < 3)%nat /\ (length foods <= 5)%nat).
Proof.
  intros Hrun Hfoods.
  destruct (gather_inv preferred_foods w) as (m0 & w0 & m1 & w1 & _ & Hrun1 & Hinv0 & Hdom & Hinv).
  rewrite Hrun in Hrun1. injection Hrun1 as <- <-.
  destruct Hinv0 as [Hdom0 Hlists].
  assert (Hc : c ∈ category_names) by (rewrite <- Hdom; by apply elem_of_dom).
  destruct (foods_of_named m0 c Hdom0 Hc) as (pref & Hpref).
  destruct (Hinv c pref Hpref) as (univ & Hfoods' & Hall & Hlen).
  rewrite Hfoods in Hfoods'. injection Hfoods' as ->.
  destruct (Hlists c pref Hpref) as [Hsix Hclass].
  by exists pref, univ.
Qed.

(** What a search returns is usable: see [usable]. *)
Lemma search_foods_usable (q : option string) (n : Z) (w w' : World B)
    (foods : list (Food num)) :
  search q n w = (Ok foods, w') -> Forall usable foods.
Proof.
  intros [->|(data & Hparse)]%search_foods_result; [constructor|].
  unfold _parse_food_data in Hparse. apply bind_Ok in Hparse as (items & _ & Hloop).
  apply parse_loop_inv in Hloop as (more & -> & Hmore & _). rewrite app_nil_l.
  eapply Forall_impl; [exact Hmore|]. intros f (item & _ & Hdec & Hpoor).
  apply decode_item_named in Hdec as [Hname (nl & Hnl)].
  split; [done|]. split; [done|]. by eapply extract_nutrients_dom.
Qed.

Lemma found_for_usable (terms : list string) (cap : Z) (food : Food num) :
  found_for requests_get terms cap food -> usable food.
Proof.
  intros (term & w & found & w' & _ & Hsearch & Hin).
  apply search_foods_usable in Hsearch. rewrite Forall_forall in Hsearch. by apply Hsearch.
Qed.

(** Once every list has three foods, the second loop does nothing. *)
Lemma fill_universal_enough (l : list (string * list string))
    (m : gmap string (list (Food num))) (w : World B) :
  l ⊆ universal_foods ->
  Forall (fun c => exists foods, m !! c = Some foods /\ (3 <= length foods)%nat)
         App.categories ->
  fill_universal requests_get l m w = (Ok m, w).
Proof.
  intros Hsub Henough. induction l as [|[c terms] rest IH]; [done|].
  assert (Hc : (c, terms) ∈ universal_foods) by (apply Hsub; apply list_elem_of_here).
  assert (Hrest : rest ⊆ universal_foods).
  { intros x Hx. apply Hsub. by apply list_elem_of_further. }
  assert (Hcat : c ∈ App.categories).
  { apply universal_named, category_names_elem in Hc. unfold App.categories.
    rewrite !elem_of_cons. tauto. }
  rewrite Forall_forall in Henough. destruct (Henough c Hcat) as (foods & Hfoods & Hlen).
  cbn [fill_universal]. unfold bind at 1, lift, foods_of. rewrite Hfoods.
  apply Nat.ltb_ge in Hlen. rewrite Hlen. by apply IH.
Qed.

(** *** The requests of the callers *)

Lemma issues_ret {A} (a : A) (P : Request -> Prop) : issues 0 P (ret a : @M B A).
Proof.
  intros w. exists []. cbn. rewrite app_nil_r. split; [done|]. split; [lia|constructor].
Qed.

Lemma issues_bind {A C} (k1 k2 : nat) (P : Request -> Prop) (m : @M B A) (f : A -> @M B C) :
  issues k1 P m -> (forall a, issues k2 P (f a)) -> issues (k1 + k2) P (bind m f).
Proof.
  intros Hm Hf w. destruct (Hm w) as (new1 & Hc1 & Hl1 & Hp1). unfold bind.
  destruct (m w) as [[a|e] w1]; cbn [snd] in Hc1.
  - destruct (Hf a w1) as (new2 & Hc2 & Hl2 & Hp2). exists (new1 ++ new2)%list.
    rewrite Hc2, Hc1, app_assoc. split; [done|].
    split; [rewrite length_app; lia|by apply Forall_app].
  - exists new1. cbn [snd]. split; [done|]. split; [lia|done].
Qed.

Lemma issues_mono {A} (k k' : nat) (P Q : Request -> Prop) (m : @M B A) :
  (k <= k')%nat -> (forall r, P r -> Q r) -> issues k P m -> issues k' Q m.
Proof.
  intros Hk HPQ Hm w. destruct (Hm w) as (new & Hc & Hl & Hp). exists new.
  split; [done|]. split; [lia|]. eapply Forall_impl; [exact Hp|done].
Qed.

Lemma issues_lift_bind {A C} (k : nat) (P : Request -> Prop) (r : result A)
    (f : A -> @M B C) :
  (forall a, issues k P (f a)) -> issues k P (bind (lift r) f).
Proof.
  intros Hf w. unfold bind, lift. destruct r as [a|e]; [apply Hf|].
  exists []. cbn. rewrite app_nil_r. split; [done|]. split; [lia|constructor].
Qed.

Lemma search_issues (q : option string) (n : Z) :
  issues 7 (fun r => rq_pageSize r = Z.min (n * 2) 50) (search q n).
Proof.
  intros w. destruct (search_calls requests_get q n w) as (new & Hc & Hl & Hp).
  exists new. split; [done|]. split; [done|].
  eapply Forall_impl; [exact Hp|]. by intros r [? _].
Qed.

Lemma search_preferred_issues (l : list string) (m : gmap string (list (Food num))) :
  issues (7 * length l) gather_page (search_preferred requests_get l m).
Proof.
  revert m. induction l as [|term rest IH]; intros m; [apply issues_ret|].
  cbn [search_preferred].
  apply (issues_mono (7 + 7 * length rest) _ gather_page gather_page);
    [cbn [length]; lia|done|].
  apply issues_bind.
  - eapply issues_mono; [done| |apply search_issues]. intros r Hr. left. exact Hr.
  - intros [|food found]; [apply IH|]. apply issues_lift_bind. apply IH.
Qed.

Lemma add_universal_issues (c : string) (l : list string)
    (m : gmap string (list (Food num))) :
  issues (7 * length l) gather_page (add_universal requests_get c l m).
Proof.
  revert m. induction l as [|term rest IH]; intros m; [apply issues_ret|].
  cbn [add_universal]. apply issues_lift_bind. intros foods.
  destruct (5 <=? length foods)%nat.
  { eapply issues_mono; [|done|apply issues_ret]. lia. }
  destruct (existsb _ _).
  { eapply issues_mono; [|done|apply IH]. cbn [length]. lia. }
  apply (issues_mono (7 + 7 * length rest) _ gather_page gather_page);
    [cbn [length]; lia|done|].
  apply issues_bind.
  - eapply issues_mono; [done| |apply search_issues]. intros r Hr. right. exact Hr.
  - intros [|food found]; apply IH.
Qed.

Lemma fill_universal_issues (l : list (string * list string))
    (m : gmap string (list (Food num))) :
  issues (7 * list_sum (map (fun kv => length kv.2) l)) gather_page
         (fill_universal requests_get l m).
Proof.
  revert m. induction l as [|[c terms] rest IH]; intros m; [apply issues_ret|].
  cbn [fill_universal]. apply issues_lift_bind. intros foods.
  assert (Hsum : (7 * list_sum (map (fun kv : string * list string => length kv.2)
                                    ((c, terms) :: rest))
                  = 7 * length terms
                    + 7 * list_sum (map (fun kv : string * list string => length kv.2) rest))%nat).
  { cbn [map list_sum snd]. unfold list_sum. cbn [foldr]. lia. }
  rewrite Hsum. destruct (length foods <? 3)%nat.
  - apply issues_bind; [apply add_universal_issues|]. intros m1. apply IH.
  - eapply issues_mono; [|done|apply IH]. lia.
Qed.

Lemma gather_issues (preferred_foods : list string) :
  issues (7 * (length preferred_foods + 20)) gather_page (gather preferred_foods).
Proof.
  unfold gather_available_foods.
  apply (issues_mono (7 * length preferred_foods + 7 * 20) _ gather_page gather_page);
    [lia|done|].
  apply issues_bind; [apply search_preferred_issues|].
  intros m. apply (fill_universal_issues universal_foods m).
Qed.

(** X8. [validate_api_connection] never raises, whatever the backend does.
    It returns [True] exactly when its search for "apple" with the cap 1
    returned its one record; it issues between none and seven requests,
    each of them for the query "apple" and two entries. *)
Theorem validate_api_connection_total (w : World B) :
  exists b w' new,
    validate_api_connection requests_get w = (Ok b, w')
    /\ (b = true <-> exists food, search (Some "apple") 1 w = (Ok [food], w'))
    /\ calls w' = (calls w ++ new)%list
    /\ (length new <= 7)%nat
    /\ Forall (fun r => rq_query r = "apple" /\ rq_pageSize r = 2%Z) new.
Proof.
  destruct (search_ok requests_get (Some "apple") 1 w) as (foods & w' & Hsearch).
  destruct (search_calls requests_get (Some "apple") 1 w) as (new & Hcalls & Hlen & Hall).
  rewrite Hsearch in Hcalls. cbn [snd] in Hcalls.
  pose proof (search_foods_length requests_get _ _ _ _ _ Hsearch) as Hone.
  exists (0 <? length foods)%nat, w', new. split.
  { unfold validate_api_connection, try_except, bind. by rewrite Hsearch. }
  split.
  { destruct foods as [|food [|? ?]]; cbn [length] in Hone; cbn [length Nat.ltb Nat.leb];
      [| |lia].
    - split; [done|]. intros (food & Heq). congruence.
    - split; [by exists food|done]. }
  split; [done|]. split; [done|].
  eapply Forall_impl; [exact Hall|]. intros r (Hpage & _ & cleaned & Hclean & Hq).
  vm_compute in Hclean. injection Hclean as <-.
  change (_simplify_query "apple") with "apple" in Hq.
  split; [by destruct Hq|exact Hpage].
Qed.


(** X10. Each list of the dict [gather_available_foods] returns is made of
    two parts. First come foods found for the preferred terms (cap 3), each
    under the category that [categorize_food_by_nutrients] gives it, at most
    six of them. After them come foods found for the universal terms of the
    category (cap 1), which are filed without being classified; there are
    some only when fewer than three foods were classified into the list, and
    then the list has at most five foods. *)
Theorem gather_available_foods_origin (preferred_foods : list string) (w w' : World B)
    (m : gmap string (list (Food num))) (c : string) (foods : list (Food num)) :
  gather preferred_foods w = (Ok m, w') ->
  m !! c = Some foods ->
  exists pref univ,
    foods = (pref ++ univ)%list
    /\ Forall (from_preferred requests_get preferred_foods c) pref
    /\ (length pref <= 6)%nat
    /\ Forall (from_universal requests_get c) univ
    /\ (univ <> [] -> (length pref < 3)%nat /\ (length foods <= 5)%nat).
Proof. apply gather_origin. Qed.

(** X11. Every food [gather_available_foods] hands on has a name that is
    not empty, calories or protein, and a nutrient mapping with exactly the
    keys calories, protein, carbs and fat. *)
Theorem gather_available_foods_usable (preferred_foods : list string) (w w' : World B)
    (m : gmap string (list (Food num))) (c : string) (foods : list (Food num)) :
  gather preferred_foods w = (Ok m, w') ->
  m !! c = Some foods ->
  Forall usable foods.
Proof.
  intros Hrun Hfoods.
  destruct (gather_origin _ _ _ _ _ _ Hrun Hfoods) as (pref & univ & -> & Hpref & _ & Huniv & _).
  apply Forall_app. split.
  - eapply Forall_impl; [exact Hpref|]. intros f [_ Hf]. by eapply found_for_usable.
  - eapply Forall_impl; [exact Huniv|]. intros f (terms & _ & Hf). by eapply found_for_usable.
Qed.

(** X12. When the searches for the preferred foods leave at least three
    foods in each of the four lists, [gather_available_foods] returns that
    dict and issues no further request: no universal term is searched. *)
Theorem gather_available_foods_no_fallback (preferred_foods : list string)
    (w w' : World B) (m : gmap string (list (Food num))) :
  search_preferred requests_get preferred_foods empty_foods w = (Ok m, w') ->
  Forall (fun c => exists foods, m !! c = Some foods /\ (3 <= length foods)%nat)
         App.categories ->
  gather preferred_foods w = (Ok m, w').
Proof.
  intros Hfirst Henough. unfold gather_available_foods, bind. rewrite Hfirst.
  by apply fill_universal_enough.
Qed.

(** X13. One call of [gather_available_foods] issues at most seven
    requests for each preferred term and each of the twenty universal terms,
    and each request asks for six entries (cap 3) or for two (cap 1). *)
Theorem gather_available_foods_requests (preferred_foods : list string) (w : World B) :
  exists new,
    calls (gather preferred_foods w).2 = (calls w ++ new)%list
    /\ (length new <= 7 * (length preferred_foods + 20))%nat
    /\ Forall gather_page new.
Proof. apply gather_issues. Qed.

End CallerProperties.

(** ** Searching with a query and with its cleaned form *)

Section NormalisedSearch.
Context {num : Type} `{PyNumber num} {B : Type}.
Variable requests_get : Request -> B -> result (Response num) * B.

Import USDAService.

#[local] Abbreviation search := (search_foods requests_get).

(** X14. [search_foods] depends on its query through [_clean_query] only,
    and a cleaned query cleans to itself: searching for a query and searching
    for its cleaned form give the same records, issue the same requests and
    leave the same world. *)
Theorem search_foods_cleaned (q : option string) (cleaned : string) (n : Z) (w : World B) :
  _clean_query q = Some cleaned ->
  search q n w = search (Some cleaned) n w.
Proof.
  intros Hclean. pose proof (clean_query_fixed q cleaned Hclean) as Hfixed.
  destruct (search_runs_cascade requests_get q n w cleaned Hclean)
    as (foods & w' & -> & Hrun & _).
  destruct (search_runs_cascade requests_get (Some cleaned) n w cleaned Hfixed)
    as (foods2 & w2 & -> & _ & Huniq).
  by destruct (Huniq foods w' Hrun) as [-> ->].
Qed.

End NormalisedSearch.

(** ** The further properties at concrete inputs *)

Section FurtherInstances.
Import USDAService Callers CallerSpec NutrientSpec PyStrShape Examples.

(** X2 on the backend that refuses every request: seven requests. *)
Lemma search_foods_empty_exhausts_witness :
  exists new,
    calls (search_foods refusing (Some "apple") 10 start).2 = (calls start ++ new)%list
    /\ [ first_request "apple" 10 (Some ["SR Legacy"]) true;
         first_request "apple" 10 (Some ["Foundation"]) true;
         first_request "apple" 10 (Some ["SR Legacy"; "Foundation"; "Survey (FNDDS)"]) false;
         first_request "apple" 10 None false;
         first_request (_simplify_query "apple") 10 None false ] `sublist_of` new
    /\ (5 <= length new)%nat.
Proof.
  apply (search_foods_empty_exhausts refusing (Some "apple") 10 start
           (search_foods refusing (Some "apple") 10 start).2 "apple").
  - reflexivity.
  - vm_compute. reflexivity.
Defined.

(** X3 at a query with blanks at its ends and a run of blanks inside. *)
Lemma clean_query_idempotent_witness :
  _clean_query (Some "  chicken   breast ") = Some "chicken breast"
  /\ _clean_query (Some "chicken breast") = Some "chicken breast"
  /\ PyStr.strip "chicken breast" = "chicken breast"
  /\ (2 <= String.length "chicken breast")%nat
  /\ exists ws, Forall is_word ws /\ "chicken breast" = PyStr.join " " ws.
Proof.
  split; [reflexivity|].
  apply (clean_query_idempotent (Some "  chicken   breast ") "chicken breast").
  reflexivity.
Defined.

(** X5 at a query without descriptor. *)
Lemma simplify_query_no_descriptor_witness :
  PyStr.any_in descriptors (PyStr.lower "Brown Rice") = false
  /\ _simplify_query "Brown Rice" = PyStr.strip (PyStr.lower "Brown Rice").
Proof.
  split; [reflexivity|].
  apply (simplify_query_no_descriptor "Brown Rice"). reflexivity.
Defined.

(** X6 on [protein_items]: the second entry decides, not the first, and
    not the third, which has the name of the nutrient but another id. *)
Lemma extract_nutrients_last_id_wins_witness :
  _extract_nutrients (JArr protein_items) = Ok (extracted protein_items)
  /\ exists v, py_round (JNum (45 # 2)%Q) 1 = Ok v
              /\ extracted protein_items !! "protein" = Some v.
Proof.
  split; [vm_compute; reflexivity|].
  apply (extract_nutrients_last_id_wins
           [protein 10] [nutrient_entry 9999 "Protein" 5] (protein (45 # 2))
           (JNum 1003%Q) (JNum (45 # 2)%Q) "protein" (extracted protein_items)).
  - vm_compute. reflexivity.
  - reflexivity.
  - vm_compute. reflexivity.
  - reflexivity.
  - vm_compute. reflexivity.
  - constructor; [|constructor]. intros (nutrient_id & Hid & Hfind).
    vm_compute in Hid. injection Hid as <-. vm_compute in Hfind. discriminate Hfind.
Defined.

(** X15 at a calcium entry between calories and protein. *)
Lemma extract_nutrients_passes_over_witness :
  mapping_find (JNum 1087%Q) = Ok None
  /\ _extract_nutrients (JArr ([energy 52] ++ calcium :: [protein 3]))
     = _extract_nutrients (JArr ([energy 52] ++ [protein 3])).
Proof.
  split; [vm_compute; reflexivity|].
  apply (extract_nutrients_passes_over [energy 52] [protein 3] calcium
           (JNum 1087%Q) (JNum 12%Q) "calcium, ca").
  - reflexivity.
  - vm_compute. reflexivity.
  - reflexivity.
  - right. split; vm_compute; reflexivity.
Defined.

(** X7 with the cap 1: the first chicken entry is returned, and the entry
    [null] appended to the response, on which the loop would raise, is not
    reached. *)
Lemma parse_food_data_capped_witness :
  _parse_food_data (body chicken_items) 1 = Ok (parsed chicken_items 1)
  /\ parsed chicken_items 1 <> []
  /\ _parse_food_data (body (chicken_items ++ [JNull])) 1 = Ok (parsed chicken_items 1).
Proof.
  assert (Hrun : _parse_food_data (body chicken_items) 1 = Ok (parsed chicken_items 1))
    by (vm_compute; reflexivity).
  assert (Hne : parsed chicken_items 1 <> [])
    by (intros Heq; vm_compute in Heq; discriminate Heq).
  split; [exact Hrun|]. split; [exact Hne|].
  apply (parse_food_data_capped (body chicken_items) (body (chicken_items ++ [JNull]))
           chicken_items [JNull] 1 (parsed chicken_items 1)).
  - reflexivity.
  - reflexivity.
  - exact Hrun.
  - exact Hne.
  - vm_compute. intros Hgt. discriminate Hgt.
Defined.

(** X10 on [menu], for the preferred food "chicken" and the list of
    carbs, which has universal foods only. *)
Lemma gather_available_foods_origin_witness :
  gather_available_foods menu ["chicken"] start = (Ok gathered, gathered_world)
  /\ gathered !! "carbs" = Some (gathered_under "carbs")
  /\ exists pref univ,
       gathered_under "carbs" = (pref ++ univ)%list
       /\ Forall (from_preferred menu ["chicken"] "carbs") pref
       /\ (length pref <= 6)%nat
       /\ Forall (from_universal menu "carbs") univ
       /\ (univ <> [] ->
           (length pref < 3)%nat /\ (length (gathered_under "carbs") <= 5)%nat).
Proof.
  assert (Hrun : gather_available_foods menu ["chicken"] start = (Ok gathered, gathered_world))
    by (vm_compute; reflexivity).
  assert (Hcarbs : gathered !! "carbs" = Some (gathered_under "carbs"))
    by (vm_compute; reflexivity).
  split; [exact Hrun|]. split; [exact Hcarbs|].
  exact (gather_available_foods_origin menu ["chicken"] start gathered_world gathered
           "carbs" (gathered_under "carbs") Hrun Hcarbs).
Defined.

(** X11 on [menu], for the preferred food "chicken" and the list of
    proteins. *)
Lemma gather_available_foods_usable_witness :
  gather_available_foods menu ["chicken"] start = (Ok gathered, gathered_world)
  /\ gathered !! "proteins" = Some (gathered_under "proteins")
  /\ Forall usable (gathered_under "proteins").
Proof.
  assert (Hrun : gather_available_foods menu ["chicken"] start = (Ok gathered, gathered_world))
    by (vm_compute; reflexivity).
  assert (Hproteins : gathered !! "proteins" = Some (gathered_under "proteins"))
    by (vm_compute; reflexivity).
  split; [exact Hrun|]. split; [exact Hproteins|].
  exact (gather_available_foods_usable menu ["chicken"] start gathered_world gathered
           "proteins" (gathered_under "proteins") Hrun Hproteins).
Defined.

(** X12 on [menu], for [menu_terms]: three foods in each list after the
    first loop. *)
Lemma gather_available_foods_no_fallback_witness :
  search_preferred menu menu_terms empty_foods start = (Ok preferred_found, preferred_world)
  /\ gather_available_foods menu menu_terms start = (Ok preferred_found, preferred_world).
Proof.
  assert (Hfirst : search_preferred menu menu_terms empty_foods start
                   = (Ok preferred_found, preferred_world))
    by (vm_compute; reflexivity).
  split; [exact Hfirst|].
  apply (gather_available_foods_no_fallback menu menu_terms start preferred_world
           preferred_found Hfirst).
  repeat constructor; eexists; (split; [vm_compute; reflexivity|cbn; lia]).
Defined.

(** X14 at a query with blanks at its ends and a run of blanks inside. *)
Lemma search_foods_cleaned_witness :
  _clean_query (Some "  chicken   breast ") = Some "chicken breast"
  /\ search_foods (always (respond 200 (body chicken_items)))
       (Some "  chicken   breast ") 10 start
     = search_foods (always (respond 200 (body chicken_items)))
         (Some "chicken breast") 10 start.
Proof.
  split; [reflexivity|].
  apply (search_foods_cleaned (always (respond 200 (body chicken_items)))
           (Some "  chicken   breast ") "chicken breast" 10 start).
  reflexivity.
Defined.

End FurtherInstances.
